(** * Buscador de películas por nacimiento: the form controller and the proxy handler

    A shallow embedding of [src/index.tsx] (the birthdate form: validation,
    cache-key derivation, cache-or-fetch flow, rendering) and of the serverless
    proxy handler, together with the parts of the JavaScript platform they call
    ([Date], string comparison, [JSON], [localStorage], the DOM nodes they
    write to).  What the platform decides on its own (the time zone, the
    clock, [JSON.parse], the answers of the network) is an explicit input of
    the model. *)

From Stdlib Require Import ZArith Lia List String Ascii DecimalString DecimalZ.
From stdpp Require Import base gmap strings.
Import ListNotations.

Local Open Scope string_scope.
Local Open Scope list_scope.
Local Open Scope Z_scope.

(** ** Time values (ECMA-262, section 21.4.1: Date objects)

    A time value is a number of milliseconds since the epoch, or NaN.  The
    day arithmetic below is the one the standard defines; all divisions are
    floor divisions, as [Z.div] is for a positive divisor. *)

Module EcmaDate.

Definition msPerDay : Z := 86400000.

(** The day number of a time value and the milliseconds into that day. *)
Definition Day (t : Z) : Z := t / msPerDay.
Definition TimeWithinDay (t : Z) : Z := t mod msPerDay.

Definition isLeapYear (y : Z) : bool :=
  ((y mod 4 =? 0) && negb (y mod 100 =? 0)) || (y mod 400 =? 0).

Definition DaysInYear (y : Z) : Z := if isLeapYear y then 366 else 365.

(** The day number of the first day of year [y]. *)
Definition DayFromYear (y : Z) : Z :=
  365 * (y - 1970) + (y - 1969) / 4 - (y - 1901) / 100 + (y - 1601) / 400.

(** YearFromTime on a day number: the largest year whose first day is not
    after day [d] ([YearFromDay_spec] below), computed from an estimate by
    the mean length of a year, corrected by at most one. *)
Definition YearFromDay (d : Z) : Z :=
  let y := 1970 + (d * 400) / 146097 in
  if DayFromYear (y + 1) <=? d then y + 1
  else if DayFromYear y <=? d then y
  else y - 1.

Definition YearFromTime (t : Z) : Z := YearFromDay (Day t).

Definition InLeapYear (t : Z) : Z := if isLeapYear (YearFromTime t) then 1 else 0.

Definition DayWithinYear (t : Z) : Z := Day t - DayFromYear (YearFromTime t).

Definition MonthFromTime (t : Z) : Z :=
  let d := DayWithinYear t in
  let l := InLeapYear t in
  if d <? 31 then 0
  else if d <? 59 + l then 1
  else if d <? 90 + l then 2
  else if d <? 120 + l then 3
  else if d <? 151 + l then 4
  else if d <? 181 + l then 5
  else if d <? 212 + l then 6
  else if d <? 243 + l then 7
  else if d <? 273 + l then 8
  else if d <? 304 + l then 9
  else if d <? 334 + l then 10
  else 11.

Definition DateFromTime (t : Z) : Z :=
  let d := DayWithinYear t in
  let l := InLeapYear t in
  match MonthFromTime t with
  | 0 => d + 1
  | 1 => d - 30
  | 2 => d - 58 - l
  | 3 => d - 89 - l
  | 4 => d - 119 - l
  | 5 => d - 150 - l
  | 6 => d - 180 - l
  | 7 => d - 211 - l
  | 8 => d - 242 - l
  | 9 => d - 272 - l
  | 10 => d - 303 - l
  | _ => d - 333 - l
  end.

(** Days of the year before month [m] (0-based) begins. *)
Definition daysBeforeMonth (leap : bool) (m : Z) : Z :=
  let l := if leap then 1 else 0 in
  match m with
  | 0 => 0
  | 1 => 31
  | 2 => 59 + l
  | 3 => 90 + l
  | 4 => 120 + l
  | 5 => 151 + l
  | 6 => 181 + l
  | 7 => 212 + l
  | 8 => 243 + l
  | 9 => 273 + l
  | 10 => 304 + l
  | _ => 334 + l
  end.

(** Days in month [m] (0-based) of year [y]. *)
Definition daysInMonth (y m : Z) : Z :=
  match m with
  | 1 => if isLeapYear y then 29 else 28
  | 3 | 5 | 8 | 10 => 30
  | _ => 31
  end.

(** A calendar date: month 1..12 and a day of that month. *)
Definition validDate (y m d : Z) : Prop :=
  1 <= m <= 12 /\ 1 <= d <= daysInMonth y (m - 1).

(** The date [a] is later than the date [b], each (year, month, day). *)
Definition laterDate (a b : Z * Z * Z) : Prop :=
  match a, b with
  | (y, m, d), (y', m', d') => y' < y \/ (y' = y /\ (m' < m \/ (m' = m /\ d' < d)))
  end.

(** MakeDay(year, month, date): the day number of the first of the month,
    plus [date - 1]; a [date] outside the month rolls over. *)
Definition MakeDay (year month date : Z) : Z :=
  let ym := year + month / 12 in
  let mn := month mod 12 in
  DayFromYear ym + daysBeforeMonth (isLeapYear ym) mn + date - 1.

Definition MakeDate (day time : Z) : Z := day * msPerDay + time.

(** TimeClip: a time value further than 8.64e15 ms from the epoch is NaN. *)
Definition TimeClip (t : Z) : option Z :=
  if Z.abs t <=? 8640000000000000 then Some t else None.

End EcmaDate.

Import EcmaDate.

(** ** Strings as the program uses them *)

Module JsString.

(** ToString of an integral Number (a year, a length). *)
Definition ofZ (z : Z) : string := NilZero.string_of_int (Z.to_int z).

(** [a > b] on strings: the order of the code units. *)
Definition gt (a b : string) : bool := String.ltb b a.

(** [s.padStart(2, '0')]. *)
Definition padStart2 (s : string) : string :=
  match s with
  | String _ EmptyString => String "0" s
  | EmptyString => "00"
  | _ => s
  end.

(** A string is truthy when it is not empty. *)
Definition truthy (s : string) : bool :=
  match s with EmptyString => false | _ => true end.

(** The value of a decimal digit. *)
Definition digit (c : ascii) : option Z :=
  let n := Z.of_N (N_of_ascii c) in
  if (48 <=? n) && (n <=? 57) then Some (n - 48) else None.

(** [l.join(sep)] on strings. *)
Fixpoint join (sep : string) (l : list string) : string :=
  match l with
  | [] => ""
  | [x] => x
  | x :: rest => x +:+ sep +:+ join sep rest
  end.

End JsString.

(** ** The platform: what the browser and the network decide *)

(** A thrown value: an Error with a name and a message. *)
Record JsError := mkError { errName : string; errMessage : string }.

(** [String(error)], as [Error.prototype.toString] builds it. *)
Definition String_of_error (e : JsError) : string :=
  match errName e, errMessage e with
  | EmptyString, m => m
  | n, EmptyString => n
  | n, m => n +:+ ": " +:+ m
  end.

(** A JSON value as [JSON.parse] returns it.  A number is kept as the text
    ToString gives for it (so [0] and [-0] are both written 0); the
    properties of an object are in enumeration order. *)
#[local] Unset Elimination Schemes.
Inductive json :=
| JNull
| JBool (b : bool)
| JNum (repr : string)
| JStr (s : string)
| JArr (items : list json)
| JObj (props : list (string * json)).
#[local] Set Elimination Schemes.

(** The built-in operations that throw a TypeError of the engine's wording. *)
Inductive BuiltinFailure :=
| ReadPropertyOfNull
| CallNonFunction
| DestructureNull.

Record Platform := {
  (** LocalTZA: the offset of local time from UTC, in milliseconds. *)
  LocalTZA : Z;
  (** [Date.parse] on a string that is not a calendar date YYYY-MM-DD:
      implementation-defined; [None] is NaN. *)
  dateParseOther : string -> option Z;
  (** [JSON.parse]: the value, or the SyntaxError it throws. *)
  JSON_parse : string -> JsError + json;
  (** Whether ToNumber of a string is greater than zero. *)
  stringNumberPositive : string -> bool;
  (** The TypeError a built-in operation throws. *)
  builtinError : BuiltinFailure -> JsError
}.

(** ** [Date] objects *)

Module JsDate.

(** Local time and back, for an offset that does not change over the days
    involved (no daylight-saving transition between them). *)
Definition LocalTime (P : Platform) (t : Z) : Z := t + LocalTZA P.
Definition UTC (P : Platform) (t : Z) : Z := t - LocalTZA P.

Definition twoDigits (a b : ascii) : option Z :=
  match JsString.digit a, JsString.digit b with
  | Some x, Some y => Some (10 * x + y)
  | _, _ => None
  end.

(** The date-only form YYYY-MM-DD of the date-time string format, for a day
    that exists, read as (year, month 1..12, day). *)
Definition parseDateOnly (s : string) : option (Z * Z * Z) :=
  match list_ascii_of_string s with
  | [y1; y2; y3; y4; h1; m1; m2; h2; d1; d2] =>
      match twoDigits y1 y2, twoDigits y3 y4, twoDigits m1 m2, twoDigits d1 d2 with
      | Some yh, Some yl, Some m, Some d =>
          let y := 100 * yh + yl in
          if Ascii.eqb h1 "-" && Ascii.eqb h2 "-"
             && (1 <=? m) && (m <=? 12) && (1 <=? d) && (d <=? daysInMonth y (m - 1))
          then Some (y, m, d) else None
      | _, _, _, _ => None
      end
  | _ => None
  end.

(** [new Date(s)]: a date-only string is UTC midnight of that day. *)
Definition ofString (P : Platform) (s : string) : option Z :=
  match parseDateOnly s with
  | Some (y, m, d) => TimeClip (MakeDate (MakeDay y (m - 1) d) 0)
  | None => match dateParseOther P s with Some t => TimeClip t | None => None end
  end.

(** [d.getDate()], [d.getMonth()], [d.getFullYear()]: fields of local time. *)
Definition getDate (P : Platform) (tv : option Z) : option Z :=
  option_map (fun t => DateFromTime (LocalTime P t)) tv.
Definition getMonth (P : Platform) (tv : option Z) : option Z :=
  option_map (fun t => MonthFromTime (LocalTime P t)) tv.
Definition getFullYear (P : Platform) (tv : option Z) : option Z :=
  option_map (fun t => YearFromTime (LocalTime P t)) tv.

(** [d.setDate(dt)]: replaces the day of the month of local time, keeping the
    time within the day; NaN stays NaN. *)
Definition setDate (P : Platform) (tv : option Z) (dt : option Z) : option Z :=
  match tv, dt with
  | Some tv, Some dt =>
      let t := LocalTime P tv in
      let newDate := MakeDate (MakeDay (YearFromTime t) (MonthFromTime t) dt) (TimeWithinDay t) in
      TimeClip (UTC P newDate)
  | _, _ => None
  end.

(** The month names of the es-ES locale, long form. *)
Definition monthLong_esES (m : Z) : string :=
  match m with
  | 0 => "enero" | 1 => "febrero" | 2 => "marzo" | 3 => "abril"
  | 4 => "mayo" | 5 => "junio" | 6 => "julio" | 7 => "agosto"
  | 8 => "septiembre" | 9 => "octubre" | 10 => "noviembre" | _ => "diciembre"
  end.

(** [d.toLocaleString('es-ES', { month: 'long' })]. *)
Definition toLocaleMonth (P : Platform) (tv : option Z) : string :=
  match getMonth P tv with
  | Some m => monthLong_esES m
  | None => "Invalid Date"
  end.

(** A Number that is an integer or NaN, inside a template literal. *)
Definition numberToString (n : option Z) : string :=
  match n with Some z => JsString.ofZ z | None => "NaN" end.

End JsDate.

(** ** JSON values in JavaScript expressions *)

Module Json.

Definition dquote : string := String "034"%char "".
Definition backslash : string := String "092"%char "".

Definition hexDigit (n : N) : ascii :=
  ascii_of_N (if (n <? 10)%N then 48 + n else 87 + n)%N.

(** The escape of one code unit inside a JSON string. *)
Definition escapeChar (c : ascii) : string :=
  let n := N_of_ascii c in
  if (n =? 34)%N then backslash +:+ dquote
  else if (n =? 92)%N then backslash +:+ backslash
  else if (n =? 8)%N then backslash +:+ "b"
  else if (n =? 9)%N then backslash +:+ "t"
  else if (n =? 10)%N then backslash +:+ "n"
  else if (n =? 12)%N then backslash +:+ "f"
  else if (n =? 13)%N then backslash +:+ "r"
  else if (n <? 32)%N then
    backslash +:+ "u00" +:+ String (hexDigit (n / 16)) (String (hexDigit (n mod 16)) "")
  else String c "".

Fixpoint escape (s : string) : string :=
  match s with
  | EmptyString => ""
  | String c rest => escapeChar c +:+ escape rest
  end.

Definition quote (s : string) : string := dquote +:+ escape s +:+ dquote.

(** [JSON.stringify(v)], without indentation. *)
Fixpoint stringify (v : json) : string :=
  match v with
  | JNull => "null"
  | JBool true => "true"
  | JBool false => "false"
  | JNum r => r
  | JStr s => quote s
  | JArr items => "[" +:+ JsString.join "," (map stringify items) +:+ "]"
  | JObj props =>
      "{" +:+ JsString.join ","
                (map (fun kv => quote (fst kv) +:+ ":" +:+ stringify (snd kv)) props)
          +:+ "}"
  end.

(** ToString, as a template literal applies it.  Inside an array (whose
    ToString is [join(",")]) a null element gives the empty string. *)
Fixpoint toString (v : json) : string :=
  match v with
  | JNull => "null"
  | JBool true => "true"
  | JBool false => "false"
  | JNum r => r
  | JStr s => s
  | JArr items =>
      JsString.join ","
        (map (fun x => match x with JNull => "" | _ => toString x end) items)
  | JObj _ => "[object Object]"
  end.

(** A value read from a property that may be missing: [None] is undefined. *)
Definition toStringU (v : option json) : string :=
  match v with Some x => toString x | None => "undefined" end.

Fixpoint assoc (k : string) (props : list (string * json)) : option json :=
  match props with
  | [] => None
  | (k', v) :: rest => if String.eqb k k' then Some v else assoc k rest
  end.

(** [v.k] for a non-null [v] and a name [k] that no prototype defines (the
    names the program reads: movieTitle, description, alternativeMovies,
    prompt): an own property of an object, undefined elsewhere. *)
Definition field (v : json) (k : string) : option json :=
  match v with
  | JObj props => assoc k props
  | _ => None
  end.

(** ToBoolean. *)
Definition truthy (v : option json) : bool :=
  match v with
  | None | Some JNull => false
  | Some (JBool b) => b
  | Some (JNum r) => negb (String.eqb r "0")
  | Some (JStr s) => JsString.truthy s
  | Some (JArr _) | Some (JObj _) => true
  end.

(** Whether a number, given by its ToString text, is greater than zero. *)
Definition numberPositive (r : string) : bool :=
  match r with
  | EmptyString => false
  | String c _ => negb (String.eqb r "0") && negb (Ascii.eqb c "-")
  end.

(** [x > 0] for a property value [x] (ToNumber, then the comparison). *)
Definition greaterThanZero (P : Platform) (x : option json) : bool :=
  match x with
  | None | Some JNull => false
  | Some (JBool b) => b
  | Some (JNum r) => numberPositive r
  | Some (JStr s) => stringNumberPositive P s
  | Some (JArr items) => stringNumberPositive P (toString (JArr items))
  | Some (JObj _) => false
  end.

(** [v.length > 0] for a truthy [v]. *)
Definition lengthPositive (P : Platform) (v : json) : bool :=
  match v with
  | JArr items => match items with [] => false | _ => true end
  | JStr s => JsString.truthy s
  | JObj props => greaterThanZero P (assoc "length" props)
  | _ => false
  end.

End Json.

(** ** The page: DOM nodes, the local store, and what a run does to them *)

(** What a run does outside the page, in the order it happens. *)
Inductive Effect :=
| GenerateContent (model prompt : string)   (* the request to the AI service *)
| SetItem (key value : string)              (* localStorage.setItem *)
| SetDisplay (value : string)               (* resultContainer.style.display = value *)
| ConsoleError (label : string) (e : JsError).

(** The state a run reads and writes: the class of the loader, the style and
    the content of the result area, the local store (a finite map from keys
    to strings, always readable and without a quota), and the effects so
    far. *)
Record World := mkWorld {
  loaderHidden : bool;                   (* loader.classList has 'hidden' *)
  display : string;                      (* resultContainer.style.display *)
  innerHTML : string;                    (* resultContainer.innerHTML *)
  localStorage : gmap string string;
  effects : list Effect
}.

Inductive Completion (A : Type) : Type :=
| Normal (a : A)
| Throw (e : JsError).
Arguments Normal {A} a.
Arguments Throw {A} e.

(** A computation on the page: it completes normally or throws, and leaves a
    world behind either way. *)
Definition Run (A : Type) : Type := World -> Completion A * World.

#[export] Instance Run_ret : MRet Run := fun A a w => (Normal a, w).

#[export] Instance Run_bind : MBind Run := fun A B f m w =>
  match m w with
  | (Normal a, w') => f a w'
  | (Throw e, w') => (Throw e, w')
  end.

Module Dom.

Definition throw {A} (e : JsError) : Run A := fun w => (Throw e, w).

Definition lift {A} (r : JsError + A) : Run A :=
  match r with inl e => throw e | inr a => mret a end.

(** [try { body } catch (error) { handler error }]. *)
Definition tryCatch {A} (body : Run A) (handler : JsError -> Run A) : Run A :=
  fun w =>
    match body w with
    | (Normal a, w') => (Normal a, w')
    | (Throw e, w') => handler e w'
    end.

(** [try { body } finally { fin }]: [fin] runs on both ways out. *)
Definition tryFinally {A} (body : Run A) (fin : Run unit) : Run A :=
  fun w =>
    match body w with
    | (c, w') =>
        match fin w' with
        | (Normal _, w'') => (c, w'')
        | (Throw e, w'') => (Throw e, w'')
        end
    end.

Definition record (e : Effect) (w : World) : World :=
  mkWorld (loaderHidden w) (display w) (innerHTML w) (localStorage w) (effects w ++ [e]).

Definition setDisplay (v : string) : Run unit := fun w =>
  (Normal tt,
   record (SetDisplay v) (mkWorld (loaderHidden w) v (innerHTML w) (localStorage w) (effects w))).

Definition setInnerHTML (html : string) : Run unit := fun w =>
  (Normal tt, mkWorld (loaderHidden w) (display w) html (localStorage w) (effects w)).

(** [loader.classList.add('hidden')] and [loader.classList.remove('hidden')]. *)
Definition loaderClassList (hidden : bool) : Run unit := fun w =>
  (Normal tt, mkWorld hidden (display w) (innerHTML w) (localStorage w) (effects w)).

(** [localStorage.getItem(key)]: [None] is null. *)
Definition getItem (key : string) : Run (option string) := fun w =>
  (Normal (localStorage w !! key), w).

Definition setItem (key value : string) : Run unit := fun w =>
  (Normal tt,
   record (SetItem key value)
     (mkWorld (loaderHidden w) (display w) (innerHTML w)
        (<[key := value]> (localStorage w)) (effects w))).

Definition consoleError (label : string) (e : JsError) : Run unit := fun w =>
  (Normal tt, record (ConsoleError label e) w).

End Dom.

(** What a list of effects holds of each kind. *)
Module Trace.

(** The prompts of the requests sent to the AI service. *)
Fixpoint calls (es : list Effect) : list string :=
  match es with
  | [] => []
  | GenerateContent _ prompt :: rest => prompt :: calls rest
  | _ :: rest => calls rest
  end.

(** The entries written to the local store. *)
Fixpoint writes (es : list Effect) : list (string * string) :=
  match es with
  | [] => []
  | SetItem k v :: rest => (k, v) :: writes rest
  | _ :: rest => writes rest
  end.

(** How many times the result area was set to be shown. *)
Fixpoint shown (es : list Effect) : nat :=
  match es with
  | [] => 0%nat
  | SetDisplay v :: rest => ((if String.eqb v "block" then 1 else 0) + shown rest)%nat
  | _ :: rest => shown rest
  end.

End Trace.

(** ** The form controller ([src/index.tsx]) *)

Module Form.

(** The page as it was loaded: the platform, the clock at load time, and the
    answer of the AI service to a request: a rejection, or a response whose
    [text] is a string or undefined. *)
Record Page := {
  platform : Platform;
  now : Z;
  aiAnswer : string -> JsError + option string
}.

(** [todayString]: the local date at load time, as YYYY-MM-DD. *)
Definition todayString (pg : Page) : string :=
  let P := platform pg in
  let today := Some (now pg) in
  let yyyy := JsDate.getFullYear P today in
  let mm := JsString.padStart2
              (JsDate.numberToString (option_map (fun m => m + 1) (JsDate.getMonth P today))) in
  let dd := JsString.padStart2 (JsDate.numberToString (JsDate.getDate P today)) in
  JsDate.numberToString yyyy +:+ "-" +:+ mm +:+ "-" +:+ dd.

Definition modelName : string := "gemini-2.5-flash".

(** [ai.models.generateContent({...})], awaited: the value of [response.text]. *)
Definition generateContent (pg : Page) (prompt : string) : Run (option string) := fun w =>
  let w' := Dom.record (GenerateContent modelName prompt) w in
  match aiAnswer pg prompt with
  | inl e => (Throw e, w')
  | inr text => (Normal text, w')
  end.

(** [JSON.parse(text)] in a run. *)
Definition parse (pg : Page) (text : string) : Run json :=
  Dom.lift (JSON_parse (platform pg) text).

(** [response.text] as [JSON.parse] reads it: undefined reads as its name. *)
Definition textOf (text : option string) : string :=
  match text with Some s => s | None => "undefined" end.

(** Truthiness of what [getItem] returned: null and the empty string are falsy. *)
Definition found (cachedResult : option string) : bool :=
  match cachedResult with Some s => JsString.truthy s | None => false end.

(** [cachedResult] as [JSON.parse] reads it (null reads as its name; the
    handler parses truthy values only). *)
Definition stored (cachedResult : option string) : string :=
  match cachedResult with Some s => s | None => "null" end.

(** The two template literals of [displayResults], line breaks and
    indentation as in the source. *)
Definition alternativesHtml (items : string) : string :=
  "
            <h3>Otras películas populares:</h3>
            <ul>
                " +:+ items +:+ "
            </ul>
        ".

Definition resultHtml (title description alternatives : string) : string :=
  "
        <h2>" +:+ title +:+ "</h2>
        <p>" +:+ description +:+ "</p>
        " +:+ alternatives +:+ "
    ".

(** [movieData.alternativeMovies.map(movie => `<li>${movie}</li>`).join('')]. *)
Definition listItems (pg : Page) (alt : json) : Run string :=
  match alt with
  | JArr items =>
      mret (JsString.join ""
              (map (fun movie => "<li>" +:+ Json.toString movie +:+ "</li>") items))
  | _ => Dom.throw (builtinError (platform pg) CallNonFunction)
  end.

(** [displayResults(movieData)]: reading a property of null throws; the
    alternatives are listed when the property is truthy and its length is
    positive. *)
Definition displayResults (pg : Page) (movieData : json) : Run unit :=
  match movieData with
  | JNull => Dom.throw (builtinError (platform pg) ReadPropertyOfNull)
  | _ =>
      let alt := Json.field movieData "alternativeMovies" in
      alternatives ←
        (match alt with
         | Some a =>
             if Json.truthy alt && Json.lengthPositive (platform pg) a
             then items ← listItems pg a; mret (alternativesHtml items)
             else mret ""
         | None => mret ""
         end);
      Dom.setInnerHTML
        (resultHtml (Json.toStringU (Json.field movieData "movieTitle"))
                    (Json.toStringU (Json.field movieData "description"))
                    alternatives);;
      Dom.loaderClassList true;;
      Dom.setDisplay "block"
  end.

(** A movie record: an object with a string title, a string description and
    an array of strings as alternatives, in any order and among any other
    properties. *)
Definition isMovieResult (data : json) (title description : string)
    (alternatives : list string) : Prop :=
  exists props,
    data = JObj props
    /\ Json.assoc "movieTitle" props = Some (JStr title)
    /\ Json.assoc "description" props = Some (JStr description)
    /\ Json.assoc "alternativeMovies" props = Some (JArr (map JStr alternatives)).

(** The markup [displayResults] builds for a movie record. *)
Definition movieHtml (title description : string) (alternatives : list string) : string :=
  resultHtml title description
    match alternatives with
    | [] => ""
    | _ => alternativesHtml
             (JsString.join "" (map (fun movie => "<li>" +:+ movie +:+ "</li>") alternatives))
    end.

Definition msgSelectDate : string := "<p>Por favor, selecciona una fecha.</p>".
Definition msgSelectPast : string := "<p>Por favor, selecciona una fecha en el pasado.</p>".
Definition msgFailure : string :=
  "<p>Lo siento, no pude encontrar una película para esa fecha. Por favor, intenta con otra.</p>".

(** [birthdate] after [birthdate.setDate(birthdate.getDate() + 1)]. *)
Definition shiftedBirthdate (P : Platform) (birthdateValue : string) : option Z :=
  let birthdate := JsDate.ofString P birthdateValue in
  JsDate.setDate P birthdate (option_map (fun d => d + 1) (JsDate.getDate P birthdate)).

(** [`movie-${month}-${year}`]. *)
Definition cacheKeyOf (month : string) (year : option Z) : string :=
  "movie-" +:+ month +:+ "-" +:+ JsDate.numberToString year.

(** The key the handler derives from the value of the date input. *)
Definition cacheKey (P : Platform) (birthdateValue : string) : string :=
  let birthdate := shiftedBirthdate P birthdateValue in
  cacheKeyOf (JsDate.toLocaleMonth P birthdate) (JsDate.getFullYear P birthdate).

(** The prompt of the request, for a month and a year. *)
Definition promptOf (month : string) (year : option Z) : string :=
  "¿Cuál fue la película más famosa y culturalmente significativa estrenada en "
  +:+ month +:+ " de " +:+ JsDate.numberToString year +:+
  "? Proporciona el título de la película, una breve descripción de dos frases, y una lista de 1 a 2 películas populares alternativas de ese mismo mes y año.".

(** The prompt the handler sends for the value of the date input. *)
Definition promptFor (P : Platform) (birthdateValue : string) : string :=
  let birthdate := shiftedBirthdate P birthdateValue in
  promptOf (JsDate.toLocaleMonth P birthdate) (JsDate.getFullYear P birthdate).

(** The values that get past both checks of the handler. *)
Definition accepted (pg : Page) (birthdateValue : string) : Prop :=
  JsString.truthy birthdateValue = true
  /\ JsString.gt birthdateValue (todayString pg) = false.

(** The submit handler, for the value the date input holds.  A run is one
    uninterrupted execution: the awaited call is answered by [aiAnswer].
    ([event.preventDefault()] only stops the browser from navigating.) *)
Definition onSubmit (pg : Page) (birthdateValue : string) : Run unit :=
  let P := platform pg in
  if negb (JsString.truthy birthdateValue) then
    Dom.setDisplay "block";;
    Dom.setInnerHTML msgSelectDate
  else if JsString.gt birthdateValue (todayString pg) then
    Dom.setDisplay "block";;
    Dom.setInnerHTML msgSelectPast
  else
    let birthdate := shiftedBirthdate P birthdateValue in
    let month := JsDate.toLocaleMonth P birthdate in
    let year := JsDate.getFullYear P birthdate in
    let cacheKey := cacheKeyOf month year in
    cachedResult ← Dom.getItem cacheKey;
    if found cachedResult then
      movieData ← parse pg (stored cachedResult);
      displayResults pg movieData
    else
      Dom.loaderClassList false;;
      Dom.setDisplay "none";;
      Dom.setInnerHTML "";;
      Dom.tryFinally
        (Dom.tryCatch
           (let prompt := promptOf month year in
            response ← generateContent pg prompt;
            movieData ← parse pg (textOf response);
            Dom.setItem cacheKey (Json.stringify movieData);;
            displayResults pg movieData)
           (fun error =>
              Dom.consoleError "Error al obtener datos de la película:" error;;
              Dom.setInnerHTML msgFailure))
        (Dom.loaderClassList true;;
         Dom.setDisplay "block").

End Form.

(** ** The proxy handler (the serverless function) *)

Module Proxy.

(** What the upstream endpoint answered: fetch resolves for any status. *)
Record UpstreamResponse := { upstreamStatus : Z; upstreamBody : string }.

(** The runtime of the function: the platform, the credential of the process
    environment (undefined when unset), and what [fetch] does with a URL and a
    request body: a rejection or the upstream response. *)
Record Runtime := {
  platform : Platform;
  GOOGLE_API_KEY : option string;
  fetch : string -> string -> JsError + UpstreamResponse
}.

(** The request as far as the handler reads it (its body, through
    [req.json()]) and the response it builds. *)
Record Request := { requestBody : string }.
Record Response := mkResponse { responseBody : string; status : Z }.

(** The next step of the [try] block, unless an earlier one threw. *)
Definition andThen {A B} (r : JsError + A) (k : A -> JsError + B) : JsError + B :=
  match r with inl e => inl e | inr a => k a end.

Definition endpoint : string :=
  "https://generativelanguage.googleapis.com/v1beta/models/gemini-pro:generateContent?key=".

(** The endpoint with the credential appended (the method and the headers
    of the request are constants). *)
Definition url (rt : Runtime) : string :=
  endpoint +:+ match GOOGLE_API_KEY rt with Some k => k | None => "undefined" end.

(** [const { prompt } = v]: null cannot be destructured; a missing property
    is undefined. *)
Definition destructurePrompt (rt : Runtime) (v : json) : JsError + option json :=
  match v with
  | JNull => inl (builtinError (platform rt) DestructureNull)
  | _ => inr (Json.field v "prompt")
  end.

(** [{ contents: [{ parts: [{ text: prompt }] }] }] as [JSON.stringify] sees
    it: a property whose value is undefined is left out. *)
Definition envelope (prompt : option json) : json :=
  JObj [("contents",
         JArr [JObj [("parts",
                      JArr [JObj (match prompt with
                                  | Some p => [("text", p)]
                                  | None => []
                                  end)])]])].

(** The body of the [try] block. *)
Definition forward (rt : Runtime) (req : Request) : JsError + Response :=
  andThen (JSON_parse (platform rt) (requestBody req)) (fun parsed =>
  andThen (destructurePrompt rt parsed) (fun prompt =>
  andThen (fetch rt (url rt) (Json.stringify (envelope prompt))) (fun response =>
  andThen (JSON_parse (platform rt) (upstreamBody response)) (fun data =>
  inr (mkResponse (Json.stringify data) 200))))).

(** [JSON.stringify({ error: String(error) })]. *)
Definition errorBody (error : JsError) : string :=
  Json.stringify (JObj [("error", JStr (String_of_error error))]).

Definition handler (rt : Runtime) (req : Request) : Response :=
  match forward rt req with
  | inr response => response
  | inl error => mkResponse (errorBody error) 500
  end.

End Proxy.

(** ** Concrete platforms, pages and requests for the examples *)

Module Sample.

Definition titanic : json :=
  JObj [("movieTitle", JStr "Titanic");
        ("description", JStr "Un transatlántico se hunde.");
        ("alternativeMovies", JArr [JStr "Tomorrow Never Dies"; JStr "Scream 2"])].

Definition promptX : json := JObj [("prompt", JStr "x")].
Definition noPrompt : json := JObj [("question", JStr "x")].
Definition upstreamAnswer : json :=
  JObj [("candidates", JArr [JObj [("content", JStr "hola")]])].

(** The JSON documents of the examples: each value with the text
    [JSON.stringify] gives for it, which is the text [JSON.parse] reads it
    back from. *)
Definition documents : list json :=
  [JNull; titanic; promptX; noPrompt; upstreamAnswer].

Definition syntaxError : JsError := mkError "SyntaxError" "Unexpected token".

Fixpoint lookupDocument (text : string) (docs : list json) : JsError + json :=
  match docs with
  | [] => inl syntaxError
  | v :: rest => if String.eqb text (Json.stringify v) then inr v else lookupDocument text rest
  end.

Definition typeError (f : BuiltinFailure) : JsError :=
  mkError "TypeError"
    match f with
    | ReadPropertyOfNull => "Cannot read properties of null"
    | CallNonFunction => "map is not a function"
    | DestructureNull => "Cannot destructure property of null"
    end.

(** A platform whose [JSON.parse] knows the documents above and rejects the
    other texts the examples use (none of them is JSON), with the offset
    [tza] from UTC and the reading [other] of date strings that are not
    YYYY-MM-DD.  No example reaches [stringNumberPositive]. *)
Definition platformWith (tza : Z) (other : string -> option Z) : Platform :=
  {| LocalTZA := tza;
     dateParseOther := other;
     JSON_parse := fun text => lookupDocument text documents;
     stringNumberPositive := fun _ => false;
     builtinError := typeError |}.

(** The same, with every date string that is not YYYY-MM-DD an invalid date. *)
Definition platformAt (tza : Z) : Platform := platformWith tza (fun _ => None).

(** Madrid in winter (UTC+1), Bogotá (UTC-5), and UTC. *)
Definition madrid : Platform := platformAt 3600000.
Definition bogota : Platform := platformAt (-18000000).
Definition utc : Platform := platformAt 0.

(** Noon UTC of 2 November 2026. *)
Definition loadTime : Z := MakeDate (MakeDay 2026 10 2) 43200000.

Definition networkError : JsError := mkError "TypeError" "Failed to fetch".

Definition pageWith (P : Platform) (answer : JsError + option string) : Form.Page :=
  {| Form.platform := P; Form.now := loadTime; Form.aiAnswer := fun _ => answer |}.

(** Three pages in Madrid: the AI call is rejected, answers with the movie
    record, answers with the JSON text null. *)
Definition pageFailing : Form.Page := pageWith madrid (inl networkError).
Definition pageTitanic : Form.Page := pageWith madrid (inr (Some (Json.stringify titanic))).
Definition pageNull : Form.Page := pageWith madrid (inr (Some "null")).

Definition emptyWorld : World :=
  mkWorld true "" "" ∅ [].

Definition worldWith (key value : string) : World :=
  mkWorld true "" "" {[ key := value ]} [].

(** A runtime of the proxy whose upstream endpoint answers every request
    with the same JSON document. *)
Definition upstreamOk : Proxy.Runtime :=
  {| Proxy.platform := utc;
     Proxy.GOOGLE_API_KEY := Some "clave";
     Proxy.fetch := fun _ _ =>
       inr {| Proxy.upstreamStatus := 200;
              Proxy.upstreamBody := Json.stringify upstreamAnswer |} |}.

End Sample.

(** * Properties *)

(** Division and remainder by a literal, as linear arithmetic. *)
Ltac euclid := Z.to_euclidean_division_equations; lia.

(** ** Day arithmetic *)

Section DayArithmetic.

Lemma Day_MakeDate day time :
  0 <= time < msPerDay -> Day (MakeDate day time) = day /\ TimeWithinDay (MakeDate day time) = time.
Proof.
  intros H. unfold Day, TimeWithinDay, MakeDate, msPerDay in *. split; euclid.
Qed.

Lemma MakeDate_Day t : MakeDate (Day t) (TimeWithinDay t) = t.
Proof. unfold MakeDate, Day, TimeWithinDay, msPerDay. euclid. Qed.

Lemma DayFromYear_mono a b : a <= b -> DayFromYear a <= DayFromYear b.
Proof. intros H. unfold DayFromYear. euclid. Qed.

Lemma YearFromDay_spec d :
  DayFromYear (YearFromDay d) <= d < DayFromYear (YearFromDay d + 1).
Proof.
  unfold YearFromDay.
  set (y := 1970 + d * 400 / 146097).
  assert (Hy : 146097 * (y - 1970) <= d * 400 < 146097 * (y - 1970) + 146097)
    by (unfold y; euclid).
  clearbody y.
  destruct (Z.leb_spec (DayFromYear (y + 1)) d) as [H1|H1].
  - split; [exact H1|]. unfold DayFromYear in *. euclid.
  - destruct (Z.leb_spec (DayFromYear y) d) as [H2|H2].
    + now split.
    + replace (y - 1 + 1) with y by lia. split; [|exact H2].
      unfold DayFromYear in *. euclid.
Qed.

Lemma YearFromDay_unique d y :
  DayFromYear y <= d < DayFromYear (y + 1) -> YearFromDay d = y.
Proof.
  intros H. pose proof (YearFromDay_spec d) as S.
  destruct (Z.lt_trichotomy (YearFromDay d) y) as [L|[E|G]]; [|exact E|].
  - pose proof (DayFromYear_mono (YearFromDay d + 1) y ltac:(lia)). lia.
  - pose proof (DayFromYear_mono (y + 1) (YearFromDay d) ltac:(lia)). lia.
Qed.

Lemma DayFromYear_succ y : DayFromYear (y + 1) = DayFromYear y + DaysInYear y.
Proof.
  unfold DaysInYear, isLeapYear, DayFromYear.
  destruct (Z.eqb_spec (y mod 4) 0), (Z.eqb_spec (y mod 100) 0), (Z.eqb_spec (y mod 400) 0);
    cbn [andb orb negb]; euclid.
Qed.

End DayArithmetic.

Section CivilFields.

Ltac split_ltb :=
  repeat match goal with
         | |- context [?a <? ?b] => destruct (Z.ltb_spec a b)
         end.

Lemma MonthFromTime_range t : 0 <= MonthFromTime t <= 11.
Proof. unfold MonthFromTime. split_ltb; lia. Qed.

(** Setting the day of the month to the current one plus [k] moves [k] days. *)
Lemma MakeDay_fields t k :
  MakeDay (YearFromTime t) (MonthFromTime t) (DateFromTime t + k) = Day t + k.
Proof.
  unfold MakeDay.
  pose proof (MonthFromTime_range t) as Hm.
  replace (MonthFromTime t / 12) with 0 by euclid.
  replace (MonthFromTime t mod 12) with (MonthFromTime t) by euclid.
  rewrite Z.add_0_r.
  unfold DateFromTime, MonthFromTime, InLeapYear, DayWithinYear.
  destruct (isLeapYear (YearFromTime t)); split_ltb; cbn [daysBeforeMonth]; lia.
Qed.

(** The fields of a time on the day [MakeDay y (m - 1) d] are [y], [m - 1], [d]. *)
Lemma fields_of_MakeDay y m d t :
  validDate y m d -> Day t = MakeDay y (m - 1) d ->
  YearFromTime t = y /\ MonthFromTime t = m - 1 /\ DateFromTime t = d.
Proof.
  intros [Hm Hd] Ht. remember (m - 1) as k eqn:Hk.
  assert (Hc : k = 0 \/ k = 1 \/ k = 2 \/ k = 3 \/ k = 4 \/ k = 5 \/ k = 6 \/ k = 7
               \/ k = 8 \/ k = 9 \/ k = 10 \/ k = 11) by lia.
  clear Hk Hm.
  assert (Hday : MakeDay y k d
                 = DayFromYear y + daysBeforeMonth (isLeapYear y) k + d - 1).
  { unfold MakeDay. replace (k / 12) with 0 by euclid.
    replace (k mod 12) with k by euclid. now rewrite Z.add_0_r. }
  rewrite Hday in Ht. clear Hday.
  assert (Hy : YearFromTime t = y).
  { unfold YearFromTime. apply YearFromDay_unique. rewrite Ht, DayFromYear_succ.
    unfold DaysInYear, daysInMonth in *.
    destruct (isLeapYear y);
      repeat (destruct Hc as [-> | Hc] || subst k); cbn in Hd |- *; lia. }
  split; [exact Hy|].
  unfold DateFromTime, MonthFromTime, InLeapYear, DayWithinYear.
  rewrite Hy, Ht. unfold daysInMonth in *.
  destruct (isLeapYear y);
    repeat (destruct Hc as [-> | Hc] || subst k); cbn in Hd |- *;
    split_ltb; try lia; split; lia.
Qed.

End CivilFields.

(** ** Dates of the form YYYY-MM-DD and the one-day shift *)

Section BirthdateShift.

Lemma digit_code c x :
  JsString.digit c = Some x -> Z.of_N (N_of_ascii c) = 48 + x /\ 0 <= x <= 9.
Proof.
  unfold JsString.digit.
  destruct (Z.leb_spec 48 (Z.of_N (N_of_ascii c))),
           (Z.leb_spec (Z.of_N (N_of_ascii c)) 57); cbn; intros [= <-]; lia.
Qed.

Lemma twoDigits_codes a b x :
  JsDate.twoDigits a b = Some x ->
  exists p q, x = 10 * p + q
              /\ Z.of_N (N_of_ascii a) = 48 + p /\ 0 <= p <= 9
              /\ Z.of_N (N_of_ascii b) = 48 + q /\ 0 <= q <= 9.
Proof.
  unfold JsDate.twoDigits.
  destruct (JsString.digit a) as [p|] eqn:Ha; [|discriminate].
  destruct (JsString.digit b) as [q|] eqn:Hb; [|discriminate].
  intros [= <-]. apply digit_code in Ha, Hb. exists p, q. tauto.
Qed.

Lemma twoDigits_range a b x : JsDate.twoDigits a b = Some x -> 0 <= x <= 99.
Proof. intros H. apply twoDigits_codes in H as (p & q & -> & _ & ? & _ & ?). lia. Qed.

Lemma parseDateOnly_valid s y m d :
  JsDate.parseDateOnly s = Some (y, m, d) -> validDate y m d /\ 0 <= y <= 9999.
Proof.
  unfold JsDate.parseDateOnly.
  destruct (list_ascii_of_string s) as [|y1 [|y2 [|y3 [|y4 [|h1 [|m1 [|m2 [|h2 [|d1 [|d2 [|]]]]]]]]]]];
    try discriminate.
  destruct (JsDate.twoDigits y1 y2) as [yh|] eqn:Hyh; [|discriminate].
  destruct (JsDate.twoDigits y3 y4) as [yl|] eqn:Hyl; [|discriminate].
  destruct (JsDate.twoDigits m1 m2) as [m'|] eqn:Hm; [|discriminate].
  destruct (JsDate.twoDigits d1 d2) as [d'|] eqn:Hd; [|discriminate].
  destruct (_ && _) eqn:Hc; [|discriminate].
  intros [= <- <- <-].
  apply twoDigits_range in Hyh, Hyl.
  repeat (apply andb_prop in Hc; destruct Hc as [Hc ?]).
  unfold validDate. lia.
Qed.

Lemma daysBeforeMonth_range leap k : 0 <= daysBeforeMonth leap k <= 335.
Proof.
  unfold daysBeforeMonth.
  repeat match goal with
         | |- context [match ?x with _ => _ end] => destruct x
         end; lia.
Qed.

Lemma daysInMonth_range y k : 28 <= daysInMonth y k <= 31.
Proof.
  unfold daysInMonth.
  repeat match goal with
         | |- context [match ?x with _ => _ end] => destruct x
         end; lia.
Qed.

Lemma MakeDay_bounds y m d :
  validDate y m d -> 0 <= y <= 9999 -> -720000 <= MakeDay y (m - 1) d <= 2933000.
Proof.
  intros [Hm Hd] Hy. unfold MakeDay.
  replace ((m - 1) / 12) with 0 by euclid.
  rewrite Z.add_0_r.
  pose proof (daysBeforeMonth_range (isLeapYear y) ((m - 1) mod 12)).
  pose proof (daysInMonth_range y (m - 1)).
  pose proof (DayFromYear_mono 0 y ltac:(lia)).
  pose proof (DayFromYear_mono y 9999 ltac:(lia)).
  change (DayFromYear 0) with (-719528) in *.
  change (DayFromYear 9999) with 2932532 in *.
  lia.
Qed.

Variable P : Platform.

Lemma ofString_dateOnly s y m d :
  JsDate.parseDateOnly s = Some (y, m, d) ->
  JsDate.ofString P s = Some (MakeDay y (m - 1) d * msPerDay).
Proof.
  intros Hs. unfold JsDate.ofString. rewrite Hs.
  destruct (parseDateOnly_valid _ _ _ _ Hs) as [Hv Hy].
  pose proof (MakeDay_bounds _ _ _ Hv Hy).
  unfold TimeClip, MakeDate. rewrite Z.add_0_r.
  destruct (Z.leb_spec (Z.abs (MakeDay y (m - 1) d * msPerDay)) 8640000000000000);
    [reflexivity | unfold msPerDay in *; lia].
Qed.

(** [d.setDate(d.getDate() + 1)] moves a time value one day ahead. *)
Lemma setDate_getDate_succ t :
  JsDate.setDate P (Some t) (option_map (fun d => d + 1) (JsDate.getDate P (Some t)))
  = TimeClip (t + msPerDay).
Proof.
  unfold JsDate.setDate, JsDate.getDate, option_map.
  rewrite MakeDay_fields. f_equal.
  unfold JsDate.UTC, JsDate.LocalTime, MakeDate, Day, TimeWithinDay, msPerDay. euclid.
Qed.

Lemma shiftedBirthdate_dateOnly s y m d :
  JsDate.parseDateOnly s = Some (y, m, d) ->
  Form.shiftedBirthdate P s = Some ((MakeDay y (m - 1) d + 1) * msPerDay).
Proof.
  intros Hs. unfold Form.shiftedBirthdate.
  rewrite (ofString_dateOnly _ _ _ _ Hs), setDate_getDate_succ.
  destruct (parseDateOnly_valid _ _ _ _ Hs) as [Hv Hy].
  pose proof (MakeDay_bounds _ _ _ Hv Hy).
  replace (MakeDay y (m - 1) d * msPerDay + msPerDay)
    with ((MakeDay y (m - 1) d + 1) * msPerDay) by lia.
  unfold TimeClip.
  destruct (Z.leb_spec (Z.abs ((MakeDay y (m - 1) d + 1) * msPerDay)) 8640000000000000);
    [reflexivity | unfold msPerDay in *; lia].
Qed.

End BirthdateShift.

(** ** String order and calendar order *)

Section DateStrings.

(** On two strings of the form YYYY-MM-DD, [>] is the order of the dates. *)
Lemma gt_dateOnly v t y m d y' m' d' :
  JsDate.parseDateOnly v = Some (y, m, d) ->
  JsDate.parseDateOnly t = Some (y', m', d') ->
  JsString.gt v t = true <-> laterDate (y, m, d) (y', m', d').
Proof.
  unfold JsDate.parseDateOnly, JsString.gt, String.ltb.
  rewrite <- (string_of_list_ascii_of_string v), <- (string_of_list_ascii_of_string t).
  destruct (list_ascii_of_string v)
    as [|a1 [|a2 [|a3 [|a4 [|g1 [|a5 [|a6 [|g2 [|a7 [|a8 [|]]]]]]]]]]]; try discriminate.
  destruct (list_ascii_of_string t)
    as [|b1 [|b2 [|b3 [|b4 [|h1 [|b5 [|b6 [|h2 [|b7 [|b8 [|]]]]]]]]]]];
    rewrite ?list_ascii_of_string_of_list_ascii; try discriminate;
    try (destruct (JsDate.twoDigits a1 a2), (JsDate.twoDigits a3 a4),
                  (JsDate.twoDigits a5 a6), (JsDate.twoDigits a7 a8);
         try destruct (_ && _); discriminate).
  destruct (JsDate.twoDigits a1 a2) as [ya|] eqn:E1; [|discriminate].
  destruct (JsDate.twoDigits a3 a4) as [yb|] eqn:E2; [|discriminate].
  destruct (JsDate.twoDigits a5 a6) as [ma|] eqn:E3; [|discriminate].
  destruct (JsDate.twoDigits a7 a8) as [da|] eqn:E4; [|discriminate].
  destruct (JsDate.twoDigits b1 b2) as [yc|] eqn:F1; [|discriminate].
  destruct (JsDate.twoDigits b3 b4) as [yd|] eqn:F2; [|discriminate].
  destruct (JsDate.twoDigits b5 b6) as [mb|] eqn:F3; [|discriminate].
  destruct (JsDate.twoDigits b7 b8) as [db|] eqn:F4; [|discriminate].
  lazymatch goal with
  | |- (if ?c then _ else _) = _ -> _ => destruct c eqn:Hv; [|discriminate]
  end.
  intros [= <- <- <-].
  lazymatch goal with
  | |- (if ?c then _ else _) = _ -> _ => destruct c eqn:Ht; [|discriminate]
  end.
  intros [= <- <- <-].
  repeat (apply andb_prop in Hv; destruct Hv as [Hv ?]).
  repeat (apply andb_prop in Ht; destruct Ht as [Ht ?]).
  repeat match goal with
         | H : Ascii.eqb _ _ = true |- _ => apply Ascii.eqb_eq in H; subst
         end.
  apply twoDigits_codes in E1, E2, E3, E4, F1, F2, F3, F4.
  destruct E1 as (p1 & p2 & -> & ? & ? & ? & ?), E2 as (p3 & p4 & -> & ? & ? & ? & ?),
           E3 as (p5 & p6 & -> & ? & ? & ? & ?), E4 as (p7 & p8 & -> & ? & ? & ? & ?),
           F1 as (q1 & q2 & -> & ? & ? & ? & ?), F2 as (q3 & q4 & -> & ? & ? & ? & ?),
           F3 as (q5 & q6 & -> & ? & ? & ? & ?), F4 as (q7 & q8 & -> & ? & ? & ? & ?).
  cbn [string_of_list_ascii String.compare]. unfold Ascii.compare, laterDate.
  change (N_of_ascii "-" ?= N_of_ascii "-")%N with Eq.
  repeat match goal with
         | |- context [(N_of_ascii ?a ?= N_of_ascii ?b)%N] =>
             destruct (N.compare_spec (N_of_ascii a) (N_of_ascii b))
         end;
    (split; [intros Hcmp; try discriminate Hcmp; lia | intros Hlate; try reflexivity; lia]).
Qed.

End DateStrings.

Section KeyOfDate.

Variable P : Platform.

(** The month and the year the handler reads off the shifted birthdate, when
    the local day of the shifted time is the calendar day [y']-[m']-[d']. *)
Lemma shifted_fields s y m d y' m' d' :
  JsDate.parseDateOnly s = Some (y, m, d) ->
  validDate y' m' d' ->
  Day (JsDate.LocalTime P ((MakeDay y (m - 1) d + 1) * msPerDay)) = MakeDay y' (m' - 1) d' ->
  JsDate.toLocaleMonth P (Form.shiftedBirthdate P s) = JsDate.monthLong_esES (m' - 1)
  /\ JsDate.getFullYear P (Form.shiftedBirthdate P s) = Some y'.
Proof.
  intros Hs Hv Hday.
  rewrite (shiftedBirthdate_dateOnly P _ _ _ _ Hs).
  unfold JsDate.toLocaleMonth, JsDate.getMonth, JsDate.getFullYear, option_map.
  destruct (fields_of_MakeDay _ _ _ _ Hv Hday) as (-> & -> & _). now split.
Qed.

Lemma key_fields s y m d y' m' d' :
  JsDate.parseDateOnly s = Some (y, m, d) ->
  validDate y' m' d' ->
  Day (JsDate.LocalTime P ((MakeDay y (m - 1) d + 1) * msPerDay)) = MakeDay y' (m' - 1) d' ->
  Form.cacheKey P s = Form.cacheKeyOf (JsDate.monthLong_esES (m' - 1)) (Some y').
Proof.
  intros Hs Hv Hday. unfold Form.cacheKey.
  now destruct (shifted_fields _ _ _ _ _ _ _ Hs Hv Hday) as [-> ->].
Qed.

(** X1. West of Greenwich the shifted local date is the chosen date. *)
Lemma cacheKey_west s y m d :
  - msPerDay <= LocalTZA P < 0 ->
  JsDate.parseDateOnly s = Some (y, m, d) ->
  Form.cacheKey P s = Form.cacheKeyOf (JsDate.monthLong_esES (m - 1)) (Some y).
Proof.
  intros Htz Hs. destruct (parseDateOnly_valid _ _ _ _ Hs) as [Hv _].
  apply (key_fields _ _ _ _ _ _ _ Hs Hv).
  unfold Day, JsDate.LocalTime, msPerDay in *. euclid.
Qed.

(** X2. At Greenwich and east of it the shifted local date is the day after the
    chosen date: the same month unless the chosen day is the last of its month. *)
Lemma cacheKey_east s y m d :
  0 <= LocalTZA P < msPerDay ->
  JsDate.parseDateOnly s = Some (y, m, d) ->
  d < daysInMonth y (m - 1) ->
  Form.cacheKey P s = Form.cacheKeyOf (JsDate.monthLong_esES (m - 1)) (Some y).
Proof.
  intros Htz Hs Hd. destruct (parseDateOnly_valid _ _ _ _ Hs) as [[Hm Hd'] _].
  apply (key_fields s y m d y m (d + 1) Hs); [unfold validDate; lia|].
  unfold MakeDay, Day, JsDate.LocalTime, msPerDay in *. euclid.
Qed.

Lemma MakeDay_next_month y k :
  0 <= k <= 11 -> MakeDay y k (daysInMonth y k) + 1 = MakeDay y (k + 1) 1.
Proof.
  intros Hk. unfold MakeDay.
  replace (k / 12) with 0 by euclid. replace (k mod 12) with k by euclid.
  rewrite Z.add_0_r.
  destruct (Z.eq_dec k 11) as [-> | Hne].
  - change ((11 + 1) / 12) with 1. change ((11 + 1) mod 12) with 0.
    rewrite DayFromYear_succ. unfold DaysInYear, daysInMonth, daysBeforeMonth.
    destruct (isLeapYear y), (isLeapYear (y + 1)); lia.
  - replace ((k + 1) / 12) with 0 by euclid. replace ((k + 1) mod 12) with (k + 1) by euclid.
    rewrite Z.add_0_r. remember (k + 1) as k' eqn:Hk'.
    assert (Hc : k = 0 \/ k = 1 \/ k = 2 \/ k = 3 \/ k = 4 \/ k = 5 \/ k = 6 \/ k = 7
                 \/ k = 8 \/ k = 9 \/ k = 10) by lia.
    clear Hk Hne.
    repeat (destruct Hc as [-> | Hc] || subst k);
      vm_compute in Hk'; subst k'; unfold daysInMonth, daysBeforeMonth;
      destruct (isLeapYear y); lia.
Qed.

(** X3. At Greenwich and east of it the last day of a month gets the key of the
    following month, January of the next year for 31 December. *)
Lemma cacheKey_east_last_day s y m d :
  0 <= LocalTZA P < msPerDay ->
  JsDate.parseDateOnly s = Some (y, m, d) ->
  d = daysInMonth y (m - 1) ->
  Form.cacheKey P s
  = if m =? 12 then Form.cacheKeyOf "enero" (Some (y + 1))
    else Form.cacheKeyOf (JsDate.monthLong_esES m) (Some y).
Proof.
  intros Htz Hs ->. destruct (parseDateOnly_valid _ _ _ _ Hs) as [[Hm Hd'] _].
  assert (Hday : Day (JsDate.LocalTime P ((MakeDay y (m - 1) (daysInMonth y (m - 1)) + 1)
                                          * msPerDay))
                 = MakeDay y (m - 1 + 1) 1).
  { rewrite <- MakeDay_next_month by lia.
    unfold Day, JsDate.LocalTime, msPerDay in *. euclid. }
  destruct (Z.eqb_spec m 12) as [-> | Hne].
  - apply (key_fields s y 12 _ (y + 1) 1 1 Hs);
      [pose proof (daysInMonth_range (y + 1) (1 - 1)); unfold validDate; lia|].
    rewrite Hday. unfold MakeDay. change ((12 - 1 + 1) / 12) with 1.
    change ((12 - 1 + 1) mod 12) with 0. change ((1 - 1) / 12) with 0.
    change ((1 - 1) mod 12) with 0. rewrite ?Z.add_0_r. reflexivity.
  - replace (JsDate.monthLong_esES m) with (JsDate.monthLong_esES (m + 1 - 1))
      by (f_equal; lia).
    apply (key_fields s y m _ y (m + 1) 1 Hs).
    + pose proof (daysInMonth_range y (m + 1 - 1)). unfold validDate. lia.
    + rewrite Hday. f_equal. lia.
Qed.

End KeyOfDate.

(** ** The cache key *)

(** C8: for the input date 2024-01-15 the handler shifts the date to
    2024-01-16, derives the month enero and the year 2024, and produces the
    key movie-enero-2024, in every time zone (any offset of less than a day). *)
Theorem key_of_2024_01_15 (P : Platform) :
  - msPerDay < LocalTZA P < msPerDay ->
  Form.shiftedBirthdate P "2024-01-15" = JsDate.ofString P "2024-01-16"
  /\ JsDate.toLocaleMonth P (Form.shiftedBirthdate P "2024-01-15") = "enero"
  /\ JsDate.getFullYear P (Form.shiftedBirthdate P "2024-01-15") = Some 2024
  /\ Form.cacheKey P "2024-01-15" = "movie-enero-2024".
Proof.
  intros Htz.
  assert (H15 : JsDate.parseDateOnly "2024-01-15" = Some (2024, 1, 15)) by reflexivity.
  assert (H16 : JsDate.parseDateOnly "2024-01-16" = Some (2024, 1, 16)) by reflexivity.
  assert (Hf : JsDate.toLocaleMonth P (Form.shiftedBirthdate P "2024-01-15") = "enero"
               /\ JsDate.getFullYear P (Form.shiftedBirthdate P "2024-01-15") = Some 2024).
  { destruct (Z.lt_ge_cases (LocalTZA P) 0) as [Hw | He].
    - (* west of UTC the shifted instant is still 15 January, local time *)
      apply (shifted_fields P _ _ _ _ 2024 1 15 H15);
        [pose proof (daysInMonth_range 2024 (1 - 1)); unfold validDate; lia|].
      change (MakeDay 2024 (1 - 1) 15) with 19737.
      unfold Day, JsDate.LocalTime, msPerDay in *. euclid.
    - (* at UTC and east of it, it is 16 January *)
      apply (shifted_fields P _ _ _ _ 2024 1 16 H15);
        [pose proof (daysInMonth_range 2024 (1 - 1)); unfold validDate; lia|].
      change (MakeDay 2024 (1 - 1) 15) with 19737.
      change (MakeDay 2024 (1 - 1) 16) with 19738.
      unfold Day, JsDate.LocalTime, msPerDay in *. euclid. }
  destruct Hf as [Hmonth Hyear].
  split; [|split; [exact Hmonth|split; [exact Hyear|]]].
  - rewrite (shiftedBirthdate_dateOnly P _ _ _ _ H15), (ofString_dateOnly P _ _ _ _ H16).
    reflexivity.
  - unfold Form.cacheKey. rewrite Hmonth, Hyear. reflexivity.
Qed.

Lemma key_of_2024_01_15_witness :
  - msPerDay < LocalTZA Sample.madrid < msPerDay
  /\ Form.cacheKey Sample.madrid "2024-01-15" = "movie-enero-2024".
Proof.
  assert (H : - msPerDay < LocalTZA Sample.madrid < msPerDay)
    by (unfold msPerDay; cbn; lia).
  split; [exact H|].
  exact (proj2 (proj2 (proj2 (key_of_2024_01_15 Sample.madrid H)))).
Defined.

(** C1, evaluated in Madrid (UTC+1): two accepted dates of January 2024, the
    15th and the 31st, get different keys, the second one the key of
    February; and the last day of 2023 gets the key of January 2024.  In
    Bogotá (UTC-5) the 31st gets the key of January. *)
Theorem same_month_different_keys_madrid :
  Form.accepted Sample.pageFailing "2024-01-15"
  /\ Form.accepted Sample.pageFailing "2024-01-31"
  /\ JsDate.parseDateOnly "2024-01-15" = Some (2024, 1, 15)
  /\ JsDate.parseDateOnly "2024-01-31" = Some (2024, 1, 31)
  /\ Form.cacheKey Sample.madrid "2024-01-15" = "movie-enero-2024"
  /\ Form.cacheKey Sample.madrid "2024-01-31" = "movie-febrero-2024"
  /\ Form.cacheKey Sample.madrid "2023-12-31" = "movie-enero-2024"
  /\ Form.cacheKey Sample.bogota "2024-01-31" = "movie-enero-2024".
Proof. repeat split; vm_compute; reflexivity. Qed.

(** ** Effects of a run *)

Lemma calls_app es es' : Trace.calls (es ++ es') = Trace.calls es ++ Trace.calls es'.
Proof.
  induction es as [|e es IH]; [reflexivity|].
  destruct e; cbn; rewrite IH; reflexivity.
Qed.

Lemma writes_app es es' : Trace.writes (es ++ es') = Trace.writes es ++ Trace.writes es'.
Proof.
  induction es as [|e es IH]; [reflexivity|].
  destruct e; cbn; rewrite IH; reflexivity.
Qed.

Lemma shown_app es es' : Trace.shown (es ++ es') = (Trace.shown es + Trace.shown es')%nat.
Proof.
  induction es as [|e es IH]; [reflexivity|].
  destruct e; cbn; rewrite IH; lia.
Qed.

(** Unfolds the primitive actions of a run. *)
Ltac run :=
  unfold mbind, Run_bind, mret, Run_ret, Dom.getItem, Dom.setItem, Dom.setDisplay,
    Dom.setInnerHTML, Dom.loaderClassList, Dom.consoleError, Dom.tryFinally, Dom.tryCatch,
    Dom.lift, Dom.throw, Dom.record, Form.generateContent, Form.parse;
  cbn.

(** ** Rendering *)

Section Rendering.

Variable pg : Form.Page.

Lemma displayResults_null w :
  Form.displayResults pg JNull w
  = (Throw (builtinError (Form.platform pg) ReadPropertyOfNull), w).
Proof. reflexivity. Qed.

(** [displayResults] either throws before it writes anything, or renders,
    hides the loader and shows the result area; it never touches the store
    and sends nothing. *)
Lemma displayResults_outcome data w :
  (exists e, Form.displayResults pg data w = (Throw e, w))
  \/ (exists title description alternatives,
        Form.displayResults pg data w
        = (Normal tt,
           mkWorld true "block" (Form.resultHtml title description alternatives)
             (localStorage w) (effects w ++ [SetDisplay "block"]))).
Proof.
  destruct data as [| b | r | s | items | props];
    try (right; do 3 eexists; reflexivity); [left; eexists; reflexivity|].
  unfold Form.displayResults.
  destruct (Json.field (JObj props) "alternativeMovies") as [a|];
    [|right; do 3 eexists; reflexivity].
  destruct (Json.truthy (Some a) && Json.lengthPositive (Form.platform pg) a);
    [|right; do 3 eexists; reflexivity].
  destruct a; try (left; eexists; reflexivity).
  right; do 3 eexists; reflexivity.
Qed.

(** What [displayResults] renders is never the failure message. *)
Lemma resultHtml_not_failure title description alternatives :
  Form.resultHtml title description alternatives <> Form.msgFailure.
Proof. discriminate. Qed.

Lemma listItems_strings alternatives :
  map (fun movie => "<li>" +:+ Json.toString movie +:+ "</li>") (map JStr alternatives)
  = map (fun movie => "<li>" +:+ movie +:+ "</li>") alternatives.
Proof. rewrite map_map. reflexivity. Qed.

(** A movie record is rendered with its title, its description and all its
    alternatives, in order. *)
Lemma displayResults_movie data title description alternatives w :
  Form.isMovieResult data title description alternatives ->
  Form.displayResults pg data w
  = (Normal tt,
     mkWorld true "block" (Form.movieHtml title description alternatives)
       (localStorage w) (effects w ++ [SetDisplay "block"])).
Proof.
  intros (props & -> & Ht & Hd & Ha).
  unfold Form.displayResults, Json.field. rewrite Ha, Ht, Hd.
  destruct alternatives as [|a rest]; [reflexivity|].
  cbn [map Json.truthy Json.lengthPositive andb].
  unfold Form.listItems. run. unfold Form.movieHtml.
  change (JStr a :: map JStr rest) with (map JStr (a :: rest)).
  rewrite listItems_strings. reflexivity.
Qed.

End Rendering.

(** ** The submit handler, path by path *)

Section SubmitHandler.

Variable pg : Form.Page.
Let P := Form.platform pg.

Lemma truthy_false s : JsString.truthy s = false -> s = "".
Proof. destruct s; [reflexivity | discriminate]. Qed.

Lemma accepted_dec v :
  Form.accepted pg v
  \/ JsString.truthy v = false
  \/ (JsString.truthy v = true /\ JsString.gt v (Form.todayString pg) = true).
Proof.
  unfold Form.accepted.
  destruct (JsString.truthy v), (JsString.gt v (Form.todayString pg)); auto.
Qed.

(** An empty value: the message, and nothing else. *)
Lemma onSubmit_empty v w :
  JsString.truthy v = false ->
  Form.onSubmit pg v w
  = (Normal tt,
     mkWorld (loaderHidden w) "block" Form.msgSelectDate (localStorage w)
       (effects w ++ [SetDisplay "block"])).
Proof. intros Hv. unfold Form.onSubmit. rewrite Hv. reflexivity. Qed.

(** A value that compares greater than [todayString]: the message, and
    nothing else. *)
Lemma onSubmit_future v w :
  JsString.truthy v = true -> JsString.gt v (Form.todayString pg) = true ->
  Form.onSubmit pg v w
  = (Normal tt,
     mkWorld (loaderHidden w) "block" Form.msgSelectPast (localStorage w)
       (effects w ++ [SetDisplay "block"])).
Proof. intros Hv Hf. unfold Form.onSubmit. rewrite Hv, Hf. reflexivity. Qed.

(** A truthy cached string: it is parsed outside any [try], and the parsed
    value goes to [displayResults]. *)
Lemma onSubmit_hit v w s :
  Form.accepted pg v ->
  localStorage w !! Form.cacheKey P v = Some s ->
  JsString.truthy s = true ->
  Form.onSubmit pg v w
  = match JSON_parse P s with
    | inl e => (Throw e, w)
    | inr data => Form.displayResults pg data w
    end.
Proof.
  intros [Hv Hp] Hs Ht. unfold Form.onSubmit. rewrite Hv, Hp. cbn [negb].
  fold P. fold (Form.cacheKey P v).
  unfold mbind, Run_bind, Dom.getItem. rewrite Hs. unfold Form.found. rewrite Ht.
  unfold Form.parse, Form.stored, Dom.lift. fold P.
  destruct (JSON_parse P s) as [e | data]; [reflexivity|].
  unfold mret, Run_ret. destruct (Form.displayResults pg data w) as [[[] | e] w']; reflexivity.
Qed.

(** No truthy cached string: the loader is shown, the request is sent, and
    the [try] block goes as far as the answer lets it. *)
Lemma onSubmit_miss v w :
  Form.accepted pg v ->
  Form.found (localStorage w !! Form.cacheKey P v) = false ->
  Form.onSubmit pg v w
  = let failedWith := fun (e : JsError) (w' : World) =>
        (Normal tt,
         mkWorld true "block" Form.msgFailure (localStorage w')
           (effects w' ++ [ConsoleError "Error al obtener datos de la película:" e;
                           SetDisplay "block"])) in
    let w1 := mkWorld false "none" "" (localStorage w)
                (effects w ++ [SetDisplay "none";
                               GenerateContent Form.modelName (Form.promptFor P v)]) in
    match Form.aiAnswer pg (Form.promptFor P v) with
    | inl e => failedWith e w1
    | inr text =>
        match JSON_parse P (Form.textOf text) with
        | inl e => failedWith e w1
        | inr data =>
            let w2 := mkWorld false "none" ""
                        (<[Form.cacheKey P v := Json.stringify data]> (localStorage w))
                        (effects w1 ++ [SetItem (Form.cacheKey P v) (Json.stringify data)]) in
            match Form.displayResults pg data w2 with
            | (Normal _, w3) =>
                (Normal tt,
                 mkWorld true "block" (innerHTML w3) (localStorage w3)
                   (effects w3 ++ [SetDisplay "block"]))
            | (Throw e, w3) => failedWith e w3
            end
        end
    end.
Proof.
  intros [Hv Hp] Hmiss. unfold Form.onSubmit. rewrite Hv, Hp. cbn [negb].
  fold P. fold (Form.cacheKey P v). fold (Form.promptFor P v).
  unfold mbind at 1. unfold Run_bind at 1. unfold Dom.getItem. rewrite Hmiss.
  run. fold P.
  destruct (Form.aiAnswer pg (Form.promptFor P v)) as [e | text]; cbn.
  - rewrite <- !app_assoc. reflexivity.
  - destruct (JSON_parse P (Form.textOf text)) as [e | data]; cbn.
    + rewrite <- !app_assoc. reflexivity.
    + rewrite <- !app_assoc. cbn.
      destruct (Form.displayResults pg data _) as [[[] | e] w3]; cbn.
      * reflexivity.
      * rewrite <- !app_assoc. reflexivity.
Qed.

(** C3: a cache miss whose AI call rejects, or whose response text does not
    parse, leaves the local store as it was, writes no entry, and renders the
    fixed failure message. *)
Theorem failed_call_leaves_cache v w e :
  Form.accepted pg v ->
  Form.found (localStorage w !! Form.cacheKey P v) = false ->
  (Form.aiAnswer pg (Form.promptFor P v) = inl e
   \/ exists text, Form.aiAnswer pg (Form.promptFor P v) = inr text
                   /\ JSON_parse P (Form.textOf text) = inl e) ->
  Form.onSubmit pg v w
  = (Normal tt,
     mkWorld true "block" Form.msgFailure (localStorage w)
       (effects w ++ [SetDisplay "none";
                      GenerateContent Form.modelName (Form.promptFor P v);
                      ConsoleError "Error al obtener datos de la película:" e;
                      SetDisplay "block"]))
  /\ Trace.writes (effects (snd (Form.onSubmit pg v w))) = Trace.writes (effects w).
Proof.
  intros Hv Hmiss Hfail.
  assert (Hrun : Form.onSubmit pg v w
                 = (Normal tt,
                    mkWorld true "block" Form.msgFailure (localStorage w)
                      (effects w ++ [SetDisplay "none";
                                     GenerateContent Form.modelName (Form.promptFor P v);
                                     ConsoleError "Error al obtener datos de la película:" e;
                                     SetDisplay "block"]))).
  { rewrite (onSubmit_miss v w Hv Hmiss). cbv zeta.
    destruct Hfail as [-> | (text & -> & ->)]; cbn; rewrite <- !app_assoc; reflexivity. }
  split; [exact Hrun|].
  rewrite Hrun. cbn [snd effects]. rewrite writes_app. cbn. apply app_nil_r.
Qed.

(** C9: a cached string that is not empty and that [JSON.parse] rejects makes
    the handler throw: the SyntaxError leaves the handler, and the page is
    as it was (no message, no request, no write). *)
Theorem corrupt_cache_entry_throws v w s e :
  Form.accepted pg v ->
  localStorage w !! Form.cacheKey P v = Some s ->
  JsString.truthy s = true ->
  JSON_parse P s = inl e ->
  Form.onSubmit pg v w = (Throw e, w).
Proof.
  intros Hv Hs Ht Hparse. rewrite (onSubmit_hit v w s Hv Hs Ht), Hparse. reflexivity.
Qed.

(** C4, amended: a cached string that is not empty and that parses goes to
    [displayResults] as parsed, with no request sent and the store left as
    it was; a movie record is rendered as it is stored. *)
Theorem cached_record_is_rendered v w s data :
  Form.accepted pg v ->
  localStorage w !! Form.cacheKey P v = Some s ->
  JsString.truthy s = true ->
  JSON_parse P s = inr data ->
  Form.onSubmit pg v w = Form.displayResults pg data w
  /\ Trace.calls (effects (snd (Form.onSubmit pg v w))) = Trace.calls (effects w)
  /\ localStorage (snd (Form.onSubmit pg v w)) = localStorage w
  /\ forall title description alternatives,
       Form.isMovieResult data title description alternatives ->
       Form.onSubmit pg v w
       = (Normal tt,
          mkWorld true "block" (Form.movieHtml title description alternatives)
            (localStorage w) (effects w ++ [SetDisplay "block"])).
Proof.
  intros Hv Hs Ht Hparse.
  assert (Hrun : Form.onSubmit pg v w = Form.displayResults pg data w)
    by (rewrite (onSubmit_hit v w s Hv Hs Ht), Hparse; reflexivity).
  rewrite Hrun. split; [reflexivity|]. split; [|split].
  - destruct (displayResults_outcome pg data w) as [[e' ->] | (t & d & a & ->)];
      cbn [snd effects]; [reflexivity|].
    rewrite calls_app. apply app_nil_r.
  - destruct (displayResults_outcome pg data w) as [[e' ->] | (t & d & a & ->)]; reflexivity.
  - intros title description alternatives Hm. now apply displayResults_movie.
Qed.

(** C5, amended: on a cache miss answered with text that parses, the handler
    sends one request and writes one entry, the serialized parsed value under
    the derived key, touching no other key; a movie record is then rendered
    with its title, description and alternatives. *)
Theorem fetched_result_is_cached v w text data :
  Form.accepted pg v ->
  Form.found (localStorage w !! Form.cacheKey P v) = false ->
  Form.aiAnswer pg (Form.promptFor P v) = inr text ->
  JSON_parse P (Form.textOf text) = inr data ->
  fst (Form.onSubmit pg v w) = Normal tt
  /\ localStorage (snd (Form.onSubmit pg v w))
     = <[Form.cacheKey P v := Json.stringify data]> (localStorage w)
  /\ (forall k, k <> Form.cacheKey P v ->
        localStorage (snd (Form.onSubmit pg v w)) !! k = localStorage w !! k)
  /\ Trace.writes (effects (snd (Form.onSubmit pg v w)))
     = Trace.writes (effects w) ++ [(Form.cacheKey P v, Json.stringify data)]
  /\ Trace.calls (effects (snd (Form.onSubmit pg v w)))
     = Trace.calls (effects w) ++ [Form.promptFor P v]
  /\ forall title description alternatives,
       Form.isMovieResult data title description alternatives ->
       innerHTML (snd (Form.onSubmit pg v w))
       = Form.movieHtml title description alternatives.
Proof.
  intros Hv Hmiss Hai Hparse.
  rewrite (onSubmit_miss v w Hv Hmiss). cbv zeta. rewrite Hai, Hparse.
  set (w2 := mkWorld false "none" "" _ _).
  assert (Hmovie : forall title description alternatives,
             Form.isMovieResult data title description alternatives ->
             Form.displayResults pg data w2
             = (Normal tt,
                mkWorld true "block" (Form.movieHtml title description alternatives)
                  (localStorage w2) (effects w2 ++ [SetDisplay "block"])))
    by (intros; now apply displayResults_movie).
  destruct (displayResults_outcome pg data w2) as [[e' Hd] | (t & d & a & Hd)];
    rewrite Hd in *; subst w2; cbn [fst snd localStorage effects innerHTML] in *.
  - split; [reflexivity|]. split; [reflexivity|].
    split; [intros k Hk; now rewrite lookup_insert_ne|].
    rewrite <- !app_assoc, writes_app, calls_app. cbn.
    repeat split. intros title description alternatives Hm.
    specialize (Hmovie _ _ _ Hm). discriminate.
  - split; [reflexivity|]. split; [reflexivity|].
    split; [intros k Hk; now rewrite lookup_insert_ne|].
    rewrite <- !app_assoc, writes_app, calls_app. cbn.
    repeat split. intros title description alternatives Hm.
    specialize (Hmovie _ _ _ Hm). congruence.
Qed.

(** After a miss, whatever the answer, the run is complete and one request
    was sent. *)
Lemma onSubmit_miss_calls v w :
  Form.accepted pg v ->
  Form.found (localStorage w !! Form.cacheKey P v) = false ->
  fst (Form.onSubmit pg v w) = Normal tt
  /\ Trace.calls (effects (snd (Form.onSubmit pg v w)))
     = Trace.calls (effects w) ++ [Form.promptFor P v].
Proof.
  intros Hv Hmiss. rewrite (onSubmit_miss v w Hv Hmiss). cbv zeta.
  destruct (Form.aiAnswer pg (Form.promptFor P v)) as [e | text]; cbn.
  - rewrite <- !app_assoc, calls_app. now cbn.
  - destruct (JSON_parse P (Form.textOf text)) as [e | data]; cbn.
    + rewrite <- !app_assoc, calls_app. now cbn.
    + set (w2 := mkWorld false "none" "" _ _).
      destruct (displayResults_outcome pg data w2) as [[e' ->] | (t & d & a & ->)];
        subst w2; cbn; rewrite <- !app_assoc, calls_app; now cbn.
Qed.

(** C7, amended: after every complete run the result area is shown.  The
    loader is hidden after every run that got past the two input checks, and
    is as it was after a run that did not.  The result area is set to be
    shown once by a run stopped at the input checks, by a cache hit and by a
    run that ends with the failure message, and never more than twice. *)
Theorem result_area_shown_after_run v w :
  fst (Form.onSubmit pg v w) = Normal tt ->
  display (snd (Form.onSubmit pg v w)) = "block"
  /\ (Form.accepted pg v -> loaderHidden (snd (Form.onSubmit pg v w)) = true)
  /\ (~ Form.accepted pg v ->
      loaderHidden (snd (Form.onSubmit pg v w)) = loaderHidden w)
  /\ (~ Form.accepted pg v
      \/ Form.found (localStorage w !! Form.cacheKey P v) = true
      \/ innerHTML (snd (Form.onSubmit pg v w)) = Form.msgFailure ->
      Trace.shown (effects (snd (Form.onSubmit pg v w)))
      = (Trace.shown (effects w) + 1)%nat)
  /\ (Trace.shown (effects w) + 1
      <= Trace.shown (effects (snd (Form.onSubmit pg v w)))
      <= Trace.shown (effects w) + 2)%nat.
Proof.
  intros Hdone.
  destruct (accepted_dec v) as [Hv | Hno].
  - destruct (Form.found (localStorage w !! Form.cacheKey P v)) eqn:Hfound.
    + (* cache hit *)
      destruct (localStorage w !! Form.cacheKey P v) as [s|] eqn:Hs; [|discriminate].
      cbn in Hfound. rewrite (onSubmit_hit v w s Hv Hs Hfound) in *.
      destruct (JSON_parse P s) as [e | data]; [discriminate|].
      destruct (displayResults_outcome pg data w) as [[e' Hd] | (t & d & a & Hd)];
        rewrite Hd in *; [discriminate|].
      cbn [snd display loaderHidden effects innerHTML]. rewrite shown_app. cbn.
      repeat split; auto; try tauto; lia.
    + (* cache miss *)
      rewrite (onSubmit_miss v w Hv Hfound) in *. cbv zeta in *.
      destruct (Form.aiAnswer pg (Form.promptFor P v)) as [e | text].
      { cbn. rewrite <- !app_assoc, shown_app. cbn.
        repeat split; auto; try tauto; lia. }
      destruct (JSON_parse P (Form.textOf text)) as [e | data].
      { cbn. rewrite <- !app_assoc, shown_app. cbn.
        repeat split; auto; try tauto; lia. }
      set (w2 := mkWorld false "none" "" _ _) in *.
      destruct (displayResults_outcome pg data w2) as [[e' Hd] | (t & d & a & Hd)];
        rewrite Hd in *; subst w2; cbn; rewrite <- !app_assoc, shown_app; cbn.
      * repeat split; auto; try tauto; lia.
      * repeat split; auto; try tauto; try lia.
        intros [Hc | [Hc | Hc]]; [tauto | discriminate |].
        now apply resultHtml_not_failure in Hc.
  - assert (Hrej : ~ Form.accepted pg v).
    { unfold Form.accepted. destruct Hno as [Hn | [_ Hn]]; rewrite Hn; intros [? ?]; discriminate. }
    assert (Hrun : exists msg,
               Form.onSubmit pg v w
               = (Normal tt,
                  mkWorld (loaderHidden w) "block" msg (localStorage w)
                    (effects w ++ [SetDisplay "block"]))).
    { destruct Hno as [Hn | [Ht Hn]]; eexists;
        [apply (onSubmit_empty v w Hn) | apply (onSubmit_future v w Ht Hn)]. }
    destruct Hrun as [msg ->]. cbn [snd display loaderHidden effects innerHTML].
    rewrite shown_app. cbn. repeat split; auto; try tauto; lia.
Qed.

(** X7. The two input checks (C6, as far as the code goes): an empty value and a
    value that compares greater than [todayString] each get their message,
    with the store untouched and no request sent. *)
Lemma rejected_values_stop v w :
  (JsString.truthy v = false ->
   innerHTML (snd (Form.onSubmit pg v w)) = Form.msgSelectDate)
  /\ (JsString.truthy v = true -> JsString.gt v (Form.todayString pg) = true ->
      innerHTML (snd (Form.onSubmit pg v w)) = Form.msgSelectPast)
  /\ (~ Form.accepted pg v ->
      fst (Form.onSubmit pg v w) = Normal tt
      /\ localStorage (snd (Form.onSubmit pg v w)) = localStorage w
      /\ Trace.calls (effects (snd (Form.onSubmit pg v w))) = Trace.calls (effects w)
      /\ Trace.writes (effects (snd (Form.onSubmit pg v w))) = Trace.writes (effects w)).
Proof.
  split; [|split].
  - intros Hn. now rewrite (onSubmit_empty v w Hn).
  - intros Ht Hn. now rewrite (onSubmit_future v w Ht Hn).
  - intros Hrej.
    destruct (accepted_dec v) as [Hv | [Hn | [Ht Hn]]]; [tauto | |].
    + rewrite (onSubmit_empty v w Hn). cbn. rewrite calls_app, writes_app. cbn.
      now rewrite !app_nil_r.
    + rewrite (onSubmit_future v w Ht Hn). cbn. rewrite calls_app, writes_app. cbn.
      now rewrite !app_nil_r.
Qed.

(** A value YYYY-MM-DD that is a later date than [todayString], itself of
    that form, stops at the second check. *)
Lemma later_date_is_rejected v w y m d y' m' d' :
  JsDate.parseDateOnly v = Some (y, m, d) ->
  JsDate.parseDateOnly (Form.todayString pg) = Some (y', m', d') ->
  laterDate (y, m, d) (y', m', d') ->
  Form.onSubmit pg v w
  = (Normal tt,
     mkWorld (loaderHidden w) "block" Form.msgSelectPast (localStorage w)
       (effects w ++ [SetDisplay "block"])).
Proof.
  intros Hv Ht Hlate. apply onSubmit_future.
  - destruct v; [discriminate Hv | reflexivity].
  - now apply (gt_dateOnly v (Form.todayString pg) y m d y' m' d' Hv Ht).
Qed.

(** After a miss the result area holds the failure message or what
    [displayResults] rendered. *)
Lemma onSubmit_miss_html v w :
  Form.accepted pg v ->
  Form.found (localStorage w !! Form.cacheKey P v) = false ->
  innerHTML (snd (Form.onSubmit pg v w)) = Form.msgFailure
  \/ exists title description alternatives,
       innerHTML (snd (Form.onSubmit pg v w))
       = Form.resultHtml title description alternatives.
Proof.
  intros Hv Hmiss. rewrite (onSubmit_miss v w Hv Hmiss). cbv zeta.
  destruct (Form.aiAnswer pg (Form.promptFor P v)) as [e | text]; [now left|].
  destruct (JSON_parse P (Form.textOf text)) as [e | data]; [now left|].
  set (w2 := mkWorld false "none" "" _ _).
  destruct (displayResults_outcome pg data w2) as [[e' ->] | (t & d & a & ->)];
    [now left | right; now exists t, d, a].
Qed.

End SubmitHandler.

(** ** The handler on concrete pages *)

Lemma failed_call_leaves_cache_witness :
  Form.accepted Sample.pageFailing "2024-01-15"
  /\ Form.found (localStorage Sample.emptyWorld !! Form.cacheKey Sample.madrid "2024-01-15")
     = false
  /\ innerHTML (snd (Form.onSubmit Sample.pageFailing "2024-01-15" Sample.emptyWorld))
     = Form.msgFailure
  /\ localStorage (snd (Form.onSubmit Sample.pageFailing "2024-01-15" Sample.emptyWorld))
     = ∅.
Proof.
  assert (Hv : Form.accepted Sample.pageFailing "2024-01-15") by (split; reflexivity).
  assert (Hmiss : Form.found (localStorage Sample.emptyWorld
                              !! Form.cacheKey Sample.madrid "2024-01-15") = false)
    by reflexivity.
  split; [exact Hv|]. split; [exact Hmiss|].
  destruct (failed_call_leaves_cache Sample.pageFailing "2024-01-15" Sample.emptyWorld
              Sample.networkError Hv Hmiss (or_introl eq_refl)) as [Hrun _].
  rewrite Hrun. split; reflexivity.
Defined.

Lemma corrupt_cache_entry_throws_witness :
  Form.accepted Sample.pageTitanic "2024-01-15"
  /\ localStorage (Sample.worldWith "movie-enero-2024" "esto no es JSON")
     !! Form.cacheKey Sample.madrid "2024-01-15" = Some "esto no es JSON"
  /\ JSON_parse Sample.madrid "esto no es JSON" = inl Sample.syntaxError
  /\ Form.onSubmit Sample.pageTitanic "2024-01-15"
       (Sample.worldWith "movie-enero-2024" "esto no es JSON")
     = (Throw Sample.syntaxError, Sample.worldWith "movie-enero-2024" "esto no es JSON").
Proof.
  assert (Hv : Form.accepted Sample.pageTitanic "2024-01-15") by (split; reflexivity).
  assert (Hs : localStorage (Sample.worldWith "movie-enero-2024" "esto no es JSON")
               !! Form.cacheKey Sample.madrid "2024-01-15" = Some "esto no es JSON")
    by reflexivity.
  assert (Hp : JSON_parse Sample.madrid "esto no es JSON" = inl Sample.syntaxError)
    by reflexivity.
  split; [exact Hv|]. split; [exact Hs|]. split; [exact Hp|].
  exact (corrupt_cache_entry_throws Sample.pageTitanic "2024-01-15" _ _ _ Hv Hs eq_refl Hp).
Defined.

(** C4 as stated fails on two stored values.  The empty string under the
    derived key is taken for a miss, and a request is sent.  The text null,
    which the handler itself stores when the AI service answers null, parses,
    and rendering it throws: the second submission of the same date ends
    with a TypeError and renders nothing. *)
Lemma cached_value_not_rendered :
  (localStorage (Sample.worldWith "movie-enero-2024" "")
   !! Form.cacheKey Sample.madrid "2024-01-15" = Some ""
   /\ Trace.calls (effects (snd (Form.onSubmit Sample.pageTitanic "2024-01-15"
                                   (Sample.worldWith "movie-enero-2024" ""))))
      = [Form.promptFor Sample.madrid "2024-01-15"])
  /\ (localStorage (snd (Form.onSubmit Sample.pageNull "2024-01-15" Sample.emptyWorld))
      !! Form.cacheKey Sample.madrid "2024-01-15" = Some "null"
      /\ Form.onSubmit Sample.pageNull "2024-01-15"
           (snd (Form.onSubmit Sample.pageNull "2024-01-15" Sample.emptyWorld))
         = (Throw (Sample.typeError ReadPropertyOfNull),
            snd (Form.onSubmit Sample.pageNull "2024-01-15" Sample.emptyWorld))).
Proof. repeat split; reflexivity. Qed.

Lemma cached_record_is_rendered_witness :
  Form.accepted Sample.pageFailing "2024-01-15"
  /\ localStorage (Sample.worldWith "movie-enero-2024" (Json.stringify Sample.titanic))
     !! Form.cacheKey Sample.madrid "2024-01-15" = Some (Json.stringify Sample.titanic)
  /\ JSON_parse Sample.madrid (Json.stringify Sample.titanic) = inr Sample.titanic
  /\ Form.onSubmit Sample.pageFailing "2024-01-15"
       (Sample.worldWith "movie-enero-2024" (Json.stringify Sample.titanic))
     = (Normal tt,
        mkWorld true "block"
          (Form.movieHtml "Titanic" "Un transatlántico se hunde."
             ["Tomorrow Never Dies"; "Scream 2"])
          {[ "movie-enero-2024" := Json.stringify Sample.titanic ]}
          [SetDisplay "block"]).
Proof.
  assert (Hv : Form.accepted Sample.pageFailing "2024-01-15") by (split; reflexivity).
  assert (Hs : localStorage (Sample.worldWith "movie-enero-2024" (Json.stringify Sample.titanic))
               !! Form.cacheKey Sample.madrid "2024-01-15"
               = Some (Json.stringify Sample.titanic)) by reflexivity.
  assert (Hp : JSON_parse Sample.madrid (Json.stringify Sample.titanic) = inr Sample.titanic)
    by reflexivity.
  split; [exact Hv|]. split; [exact Hs|]. split; [exact Hp|].
  apply (cached_record_is_rendered Sample.pageFailing "2024-01-15" _ _ _ Hv Hs eq_refl Hp).
  eexists. repeat split; reflexivity.
Defined.

Lemma fetched_result_is_cached_witness :
  Form.accepted Sample.pageTitanic "2024-01-15"
  /\ Form.found (localStorage Sample.emptyWorld !! Form.cacheKey Sample.madrid "2024-01-15")
     = false
  /\ Form.aiAnswer Sample.pageTitanic (Form.promptFor Sample.madrid "2024-01-15")
     = inr (Some (Json.stringify Sample.titanic))
  /\ JSON_parse Sample.madrid (Json.stringify Sample.titanic) = inr Sample.titanic
  /\ localStorage (snd (Form.onSubmit Sample.pageTitanic "2024-01-15" Sample.emptyWorld))
     = {[ "movie-enero-2024" := Json.stringify Sample.titanic ]}
  /\ innerHTML (snd (Form.onSubmit Sample.pageTitanic "2024-01-15" Sample.emptyWorld))
     = Form.movieHtml "Titanic" "Un transatlántico se hunde."
         ["Tomorrow Never Dies"; "Scream 2"].
Proof.
  assert (Hv : Form.accepted Sample.pageTitanic "2024-01-15") by (split; reflexivity).
  assert (Hmiss : Form.found (localStorage Sample.emptyWorld
                              !! Form.cacheKey Sample.madrid "2024-01-15") = false)
    by reflexivity.
  assert (Hp : JSON_parse Sample.madrid (Json.stringify Sample.titanic) = inr Sample.titanic)
    by reflexivity.
  split; [exact Hv|]. split; [exact Hmiss|]. split; [reflexivity|]. split; [exact Hp|].
  destruct (fetched_result_is_cached Sample.pageTitanic "2024-01-15" Sample.emptyWorld
              (Some (Json.stringify Sample.titanic)) Sample.titanic Hv Hmiss eq_refl Hp)
    as (_ & Hstore & _ & _ & _ & Hhtml).
  split; [exact Hstore|].
  apply Hhtml. eexists. repeat split; reflexivity.
Defined.

(** C5 as stated fails when the text of the answer is the JSON text null:
    it parses and is written to the store under the derived key, and the
    failure message is rendered. *)
Lemma null_answer_cached_not_rendered :
  Form.accepted Sample.pageNull "2024-01-15"
  /\ Form.found (localStorage Sample.emptyWorld !! Form.cacheKey Sample.madrid "2024-01-15")
     = false
  /\ Form.aiAnswer Sample.pageNull (Form.promptFor Sample.madrid "2024-01-15")
     = inr (Some "null")
  /\ JSON_parse Sample.madrid "null" = inr JNull
  /\ fst (Form.onSubmit Sample.pageNull "2024-01-15" Sample.emptyWorld) = Normal tt
  /\ innerHTML (snd (Form.onSubmit Sample.pageNull "2024-01-15" Sample.emptyWorld))
     = Form.msgFailure
  /\ localStorage (snd (Form.onSubmit Sample.pageNull "2024-01-15" Sample.emptyWorld))
     !! "movie-enero-2024" = Some "null".
Proof. repeat split; reflexivity. Qed.

Lemma result_area_shown_after_run_witness :
  fst (Form.onSubmit Sample.pageTitanic "2024-01-15" Sample.emptyWorld) = Normal tt
  /\ display (snd (Form.onSubmit Sample.pageTitanic "2024-01-15" Sample.emptyWorld))
     = "block"
  /\ loaderHidden (snd (Form.onSubmit Sample.pageTitanic "2024-01-15" Sample.emptyWorld))
     = true.
Proof.
  assert (Hdone : fst (Form.onSubmit Sample.pageTitanic "2024-01-15" Sample.emptyWorld)
                  = Normal tt) by reflexivity.
  assert (Hv : Form.accepted Sample.pageTitanic "2024-01-15") by (split; reflexivity).
  destruct (result_area_shown_after_run Sample.pageTitanic "2024-01-15" Sample.emptyWorld
              Hdone) as (Hshown & Hloader & _).
  split; [exact Hdone|]. split; [exact Hshown|]. exact (Hloader Hv).
Defined.

(** C7 as stated fails twice.  While the request of an earlier submission
    is in flight the loader is visible, and a submission of the empty value
    made then completes with the loader still visible.  And a run that
    fetches and renders a result sets the result area to be shown twice, in
    [displayResults] and in [finally]. *)
Lemma loader_left_visible_and_shown_twice :
  Form.onSubmit Sample.pageTitanic ""
    (mkWorld false "none" "" ∅
       [SetDisplay "none";
        GenerateContent Form.modelName (Form.promptFor Sample.madrid "2024-01-15")])
  = (Normal tt,
     mkWorld false "block" Form.msgSelectDate ∅
       [SetDisplay "none";
        GenerateContent Form.modelName (Form.promptFor Sample.madrid "2024-01-15");
        SetDisplay "block"])
  /\ fst (Form.onSubmit Sample.pageTitanic "2024-01-15" Sample.emptyWorld) = Normal tt
  /\ Trace.shown (effects (snd (Form.onSubmit Sample.pageTitanic "2024-01-15"
                                  Sample.emptyWorld)))
     = 2%nat.
Proof. repeat split; reflexivity. Qed.

(** C6, evaluated on a date after today whose year has five digits, on a
    page loaded on 2 November 2026 in Madrid, whatever the platform makes of
    such a date string and whatever the AI service answers: the value is not
    greater than [todayString] as a string, so the run goes on to the cache
    and, on a miss, sends a request; the message about past dates is not
    rendered. *)
Theorem year_10000_gets_past_the_check
    (other : string -> option Z) (answer : JsError + option string) :
  Form.todayString (Sample.pageWith (Sample.platformWith 3600000 other) answer)
  = "2026-11-02"
  /\ JsString.gt "10000-01-01" "2026-11-02" = false
  /\ fst (Form.onSubmit (Sample.pageWith (Sample.platformWith 3600000 other) answer)
            "10000-01-01" Sample.emptyWorld) = Normal tt
  /\ Trace.calls
       (effects (snd (Form.onSubmit (Sample.pageWith (Sample.platformWith 3600000 other) answer)
                        "10000-01-01" Sample.emptyWorld)))
     = [Form.promptFor (Sample.platformWith 3600000 other) "10000-01-01"]
  /\ innerHTML (snd (Form.onSubmit (Sample.pageWith (Sample.platformWith 3600000 other) answer)
                       "10000-01-01" Sample.emptyWorld))
     <> Form.msgSelectPast.
Proof.
  set (pg := Sample.pageWith (Sample.platformWith 3600000 other) answer).
  assert (Htoday : Form.todayString pg = "2026-11-02") by reflexivity.
  assert (Hv : Form.accepted pg "10000-01-01") by (split; [reflexivity | now rewrite Htoday]).
  assert (Hmiss : Form.found (localStorage Sample.emptyWorld
                              !! Form.cacheKey (Form.platform pg) "10000-01-01") = false)
    by (cbn [Sample.emptyWorld localStorage]; now rewrite lookup_empty).
  split; [exact Htoday|]. split; [reflexivity|].
  destruct (onSubmit_miss_calls pg _ _ Hv Hmiss) as [Hdone Hcalls].
  split; [exact Hdone|]. split; [exact Hcalls|].
  destruct (onSubmit_miss_html pg _ _ Hv Hmiss) as [-> | (t & d & a & ->)]; discriminate.
Qed.

(** ** The proxy handler *)

Section ProxyHandler.

Variable rt : Proxy.Runtime.
Let P := Proxy.platform rt.

(** Whatever leaves the [try] block as an exception comes back as a 500
    response with the stringified error. *)
Lemma handler_catches req error :
  Proxy.forward rt req = inl error ->
  Proxy.handler rt req = Proxy.mkResponse (Proxy.errorBody error) 500.
Proof. intros H. unfold Proxy.handler. now rewrite H. Qed.

(** C2: when the request body parses, the upstream fetch resolves and the
    upstream body decodes, the handler answers 200 with the upstream JSON;
    an exception at any step of the way (malformed input, a body that
    cannot be destructured, a rejected fetch, an upstream body that is not
    JSON) gives 500 with the error stringified under the key error. *)
Theorem proxy_relays_or_reports req :
  (forall parsed prompt response data,
      JSON_parse P (Proxy.requestBody req) = inr parsed ->
      Proxy.destructurePrompt rt parsed = inr prompt ->
      Proxy.fetch rt (Proxy.url rt) (Json.stringify (Proxy.envelope prompt)) = inr response ->
      JSON_parse P (Proxy.upstreamBody response) = inr data ->
      Proxy.handler rt req = Proxy.mkResponse (Json.stringify data) 200)
  /\ (forall error,
         Proxy.forward rt req = inl error ->
         Proxy.handler rt req
         = Proxy.mkResponse
             (Json.stringify (JObj [("error", JStr (String_of_error error))])) 500)
  /\ (forall error,
         JSON_parse P (Proxy.requestBody req) = inl error ->
         Proxy.forward rt req = inl error)
  /\ (forall parsed error,
         JSON_parse P (Proxy.requestBody req) = inr parsed ->
         Proxy.destructurePrompt rt parsed = inl error ->
         Proxy.forward rt req = inl error)
  /\ (forall parsed prompt error,
         JSON_parse P (Proxy.requestBody req) = inr parsed ->
         Proxy.destructurePrompt rt parsed = inr prompt ->
         Proxy.fetch rt (Proxy.url rt) (Json.stringify (Proxy.envelope prompt)) = inl error ->
         Proxy.forward rt req = inl error)
  /\ (forall parsed prompt response error,
         JSON_parse P (Proxy.requestBody req) = inr parsed ->
         Proxy.destructurePrompt rt parsed = inr prompt ->
         Proxy.fetch rt (Proxy.url rt) (Json.stringify (Proxy.envelope prompt)) = inr response ->
         JSON_parse P (Proxy.upstreamBody response) = inl error ->
         Proxy.forward rt req = inl error).
Proof.
  unfold Proxy.handler, Proxy.forward. fold P.
  split; [|split; [|split; [|split; [|split]]]].
  - intros parsed prompt response data H1 H2 H3 H4.
    rewrite H1; cbn [Proxy.andThen]; rewrite H2; cbn [Proxy.andThen];
      rewrite H3; cbn [Proxy.andThen]; rewrite H4; reflexivity.
  - intros error ->. reflexivity.
  - intros error ->. reflexivity.
  - intros parsed error H1 H2.
    rewrite H1; cbn [Proxy.andThen]; rewrite H2; reflexivity.
  - intros parsed prompt error H1 H2 H3.
    rewrite H1; cbn [Proxy.andThen]; rewrite H2; cbn [Proxy.andThen]; rewrite H3; reflexivity.
  - intros parsed prompt response error H1 H2 H3 H4.
    rewrite H1; cbn [Proxy.andThen]; rewrite H2; cbn [Proxy.andThen];
      rewrite H3; cbn [Proxy.andThen]; rewrite H4; reflexivity.
Qed.

(** C10, amended: a body that is valid JSON other than null and has no
    prompt property is forwarded, the text of the envelope left out; when
    the upstream fetch resolves and its body decodes, the handler answers
    200 with the upstream JSON. *)
Theorem missing_prompt_is_forwarded req parsed :
  JSON_parse P (Proxy.requestBody req) = inr parsed ->
  parsed <> JNull ->
  Json.field parsed "prompt" = None ->
  Proxy.forward rt req
  = Proxy.andThen (Proxy.fetch rt (Proxy.url rt) (Json.stringify (Proxy.envelope None)))
      (fun response =>
         Proxy.andThen (JSON_parse P (Proxy.upstreamBody response))
           (fun data => inr (Proxy.mkResponse (Json.stringify data) 200)))
  /\ Json.stringify (Proxy.envelope None)
     = "{" +:+ Json.quote "contents" +:+ ":[{" +:+ Json.quote "parts" +:+ ":[{}]}]}"
  /\ forall response data,
       Proxy.fetch rt (Proxy.url rt) (Json.stringify (Proxy.envelope None)) = inr response ->
       JSON_parse P (Proxy.upstreamBody response) = inr data ->
       Proxy.handler rt req = Proxy.mkResponse (Json.stringify data) 200.
Proof.
  intros Hparse Hnull Hfield.
  assert (Hd : Proxy.destructurePrompt rt parsed = inr None).
  { unfold Proxy.destructurePrompt. rewrite Hfield. now destruct parsed. }
  assert (Hf : Proxy.forward rt req
               = Proxy.andThen
                   (Proxy.fetch rt (Proxy.url rt) (Json.stringify (Proxy.envelope None)))
                   (fun response =>
                      Proxy.andThen (JSON_parse P (Proxy.upstreamBody response))
                        (fun data => inr (Proxy.mkResponse (Json.stringify data) 200)))).
  { unfold Proxy.forward. fold P. rewrite Hparse. cbn [Proxy.andThen]. rewrite Hd. reflexivity. }
  split; [exact Hf|]. split; [reflexivity|].
  intros response data Hfetch Hdata. unfold Proxy.handler. rewrite Hf, Hfetch.
  cbn [Proxy.andThen]. now rewrite Hdata.
Qed.

End ProxyHandler.

Lemma proxy_relays_or_reports_witness :
  JSON_parse Sample.utc (Json.stringify Sample.promptX) = inr Sample.promptX
  /\ Proxy.destructurePrompt Sample.upstreamOk Sample.promptX = inr (Some (JStr "x"))
  /\ Proxy.handler Sample.upstreamOk {| Proxy.requestBody := Json.stringify Sample.promptX |}
     = Proxy.mkResponse (Json.stringify Sample.upstreamAnswer) 200.
Proof.
  split; [reflexivity|]. split; [reflexivity|].
  exact (proj1 (proxy_relays_or_reports Sample.upstreamOk
                  {| Proxy.requestBody := Json.stringify Sample.promptX |})
           Sample.promptX (Some (JStr "x"))
           {| Proxy.upstreamStatus := 200;
              Proxy.upstreamBody := Json.stringify Sample.upstreamAnswer |}
           Sample.upstreamAnswer eq_refl eq_refl eq_refl eq_refl).
Defined.

Lemma missing_prompt_is_forwarded_witness :
  JSON_parse Sample.utc (Json.stringify Sample.noPrompt) = inr Sample.noPrompt
  /\ Sample.noPrompt <> JNull
  /\ Json.field Sample.noPrompt "prompt" = None
  /\ Proxy.handler Sample.upstreamOk {| Proxy.requestBody := Json.stringify Sample.noPrompt |}
     = Proxy.mkResponse (Json.stringify Sample.upstreamAnswer) 200.
Proof.
  assert (Hn : Sample.noPrompt <> JNull) by discriminate.
  split; [reflexivity|]. split; [exact Hn|]. split; [reflexivity|].
  destruct (missing_prompt_is_forwarded Sample.upstreamOk
              {| Proxy.requestBody := Json.stringify Sample.noPrompt |}
              Sample.noPrompt eq_refl Hn eq_refl) as (_ & _ & Hok).
  exact (Hok {| Proxy.upstreamStatus := 200;
                Proxy.upstreamBody := Json.stringify Sample.upstreamAnswer |}
             Sample.upstreamAnswer eq_refl eq_refl).
Defined.

(** C10 as stated fails on the body null: it is valid JSON without a prompt
    property, the upstream endpoint works, and the handler answers 500. *)
Lemma null_body_is_an_error :
  JSON_parse Sample.utc "null" = inr JNull
  /\ Json.field JNull "prompt" = None
  /\ Proxy.handler Sample.upstreamOk {| Proxy.requestBody := "null" |}
     = Proxy.mkResponse (Proxy.errorBody (Sample.typeError DestructureNull)) 500.
Proof. repeat split; reflexivity. Qed.

(** * Further properties of the code *)

(** ** The key of a date, by time zone *)

Lemma cacheKey_west_witness :
  - msPerDay <= LocalTZA Sample.bogota < 0
  /\ JsDate.parseDateOnly "2024-01-31" = Some (2024, 1, 31)
  /\ Form.cacheKey Sample.bogota "2024-01-31" = "movie-enero-2024".
Proof.
  assert (Htz : - msPerDay <= LocalTZA Sample.bogota < 0) by (unfold msPerDay; cbn; lia).
  split; [exact Htz|]. split; [reflexivity|].
  exact (cacheKey_west Sample.bogota "2024-01-31" 2024 1 31 Htz eq_refl).
Defined.

Lemma cacheKey_east_witness :
  0 <= LocalTZA Sample.madrid < msPerDay
  /\ JsDate.parseDateOnly "2024-02-28" = Some (2024, 2, 28)
  /\ 28 < daysInMonth 2024 (2 - 1)
  /\ Form.cacheKey Sample.madrid "2024-02-28" = "movie-febrero-2024".
Proof.
  assert (Htz : 0 <= LocalTZA Sample.madrid < msPerDay) by (unfold msPerDay; cbn; lia).
  assert (Hd : 28 < daysInMonth 2024 (2 - 1)) by reflexivity.
  split; [exact Htz|]. split; [reflexivity|]. split; [exact Hd|].
  exact (cacheKey_east Sample.madrid "2024-02-28" 2024 2 28 Htz eq_refl Hd).
Defined.

Lemma cacheKey_east_last_day_witness :
  0 <= LocalTZA Sample.madrid < msPerDay
  /\ JsDate.parseDateOnly "2023-12-31" = Some (2023, 12, 31)
  /\ 31 = daysInMonth 2023 (12 - 1)
  /\ Form.cacheKey Sample.madrid "2023-12-31" = "movie-enero-2024".
Proof.
  assert (Htz : 0 <= LocalTZA Sample.madrid < msPerDay) by (unfold msPerDay; cbn; lia).
  split; [exact Htz|]. split; [reflexivity|]. split; [reflexivity|].
  exact (cacheKey_east_last_day Sample.madrid "2023-12-31" 2023 12 31 Htz eq_refl eq_refl).
Defined.

(** X4. The shift adds exactly one day to the time value of the date string,
    whatever the time zone and however the string was read; an invalid date
    stays invalid. *)
Theorem shift_adds_one_day (P : Platform) (birthdateValue : string) :
  Form.shiftedBirthdate P birthdateValue
  = match JsDate.ofString P birthdateValue with
    | Some t => TimeClip (t + msPerDay)
    | None => None
    end.
Proof.
  unfold Form.shiftedBirthdate.
  destruct (JsDate.ofString P birthdateValue) as [t|]; [|reflexivity].
  apply setDate_getDate_succ.
Qed.

(** ** The date string of today *)

Section TodayString.

(** The fields of a time make a calendar date. *)
Lemma fields_valid t :
  validDate (YearFromTime t) (MonthFromTime t + 1) (DateFromTime t).
Proof.
  unfold validDate. replace (MonthFromTime t + 1 - 1) with (MonthFromTime t) by lia.
  pose proof (YearFromDay_spec (Day t)) as Hy. rewrite DayFromYear_succ in Hy.
  fold (YearFromTime t) in Hy.
  unfold DateFromTime, MonthFromTime, InLeapYear, DayWithinYear, DaysInYear, daysInMonth in *.
  destruct (isLeapYear (YearFromTime t));
    repeat match goal with
           | |- context [?a <? ?b] => destruct (Z.ltb_spec a b)
           end; lia.
Qed.

(** A property of the [n] integers from [lo] on, checked one by one. *)
Lemma forall_range (f : Z -> bool) (lo : Z) (n : nat) :
  forallb f (map (fun i => lo + Z.of_nat i) (seq 0 n)) = true ->
  forall z, lo <= z < lo + Z.of_nat n -> f z = true.
Proof.
  intros Hall z Hz. rewrite forallb_forall in Hall. apply Hall.
  rewrite in_map_iff. exists (Z.to_nat (z - lo)). split; [lia|].
  apply in_seq. lia.
Qed.

Lemma fourDigits_year y :
  1000 <= y <= 9999 ->
  exists a b c d,
    JsString.ofZ y = String a (String b (String c (String d "")))
    /\ JsDate.twoDigits a b = Some (y / 100)
    /\ JsDate.twoDigits c d = Some (y mod 100).
Proof.
  intros Hy.
  pose (ok := fun y : Z =>
    match JsString.ofZ y with
    | String a (String b (String c (String d EmptyString))) =>
        match JsDate.twoDigits a b, JsDate.twoDigits c d with
        | Some h, Some l => (h =? y / 100) && (l =? y mod 100)
        | _, _ => false
        end
    | _ => false
    end).
  assert (Hok : ok y = true).
  { apply (forall_range ok 1000 (Z.to_nat 9000)); [vm_compute; reflexivity | lia]. }
  unfold ok in Hok.
  destruct (JsString.ofZ y) as [|a [|b [|c [|d [|]]]]]; try discriminate.
  destruct (JsDate.twoDigits a b) as [h|] eqn:Hab; [|discriminate].
  destruct (JsDate.twoDigits c d) as [l|] eqn:Hcd; [|discriminate].
  apply andb_prop in Hok as [Hh Hl]. apply Z.eqb_eq in Hh, Hl. subst.
  now exists a, b, c, d.
Qed.

Lemma twoDigits_padded k :
  0 <= k <= 99 ->
  exists a b,
    JsString.padStart2 (JsString.ofZ k) = String a (String b "")
    /\ JsDate.twoDigits a b = Some k.
Proof.
  intros Hk.
  pose (ok := fun k : Z =>
    match JsString.padStart2 (JsString.ofZ k) with
    | String a (String b EmptyString) =>
        match JsDate.twoDigits a b with
        | Some x => x =? k
        | None => false
        end
    | _ => false
    end).
  assert (Hok : ok k = true).
  { apply (forall_range ok 0 (Z.to_nat 100)); [vm_compute; reflexivity | lia]. }
  unfold ok in Hok.
  destruct (JsString.padStart2 (JsString.ofZ k)) as [|a [|b [|]]]; try discriminate.
  destruct (JsDate.twoDigits a b) as [x|] eqn:Hab; [|discriminate].
  apply Z.eqb_eq in Hok. subst. now exists a, b.
Qed.

(** X5. [todayString] reads back as the local date at load time: while the local
    year has four digits, it is a string YYYY-MM-DD whose year, month and day
    are those of the local time of [now]. *)
Theorem todayString_reads_back (pg : Form.Page) :
  1000 <= YearFromTime (JsDate.LocalTime (Form.platform pg) (Form.now pg)) <= 9999 ->
  JsDate.parseDateOnly (Form.todayString pg)
  = Some (YearFromTime (JsDate.LocalTime (Form.platform pg) (Form.now pg)),
          MonthFromTime (JsDate.LocalTime (Form.platform pg) (Form.now pg)) + 1,
          DateFromTime (JsDate.LocalTime (Form.platform pg) (Form.now pg))).
Proof.
  intros Hy. set (t := JsDate.LocalTime (Form.platform pg) (Form.now pg)) in *.
  destruct (fields_valid t) as [Hm Hd].
  pose proof (daysInMonth_range (YearFromTime t) (MonthFromTime t + 1 - 1)) as Hdim.
  destruct (fourDigits_year _ Hy) as (a & b & c & d & Hys & Hab & Hcd).
  destruct (twoDigits_padded (MonthFromTime t + 1) ltac:(lia)) as (m1 & m2 & Hms & Hmm).
  destruct (twoDigits_padded (DateFromTime t) ltac:(lia)) as (d1 & d2 & Hds & Hdd).
  unfold Form.todayString, JsDate.getFullYear, JsDate.getMonth, JsDate.getDate,
    option_map, JsDate.numberToString.
  fold t. rewrite Hys, Hms, Hds.
  unfold JsDate.parseDateOnly. cbv [String.append list_ascii_of_string].
  rewrite Hab, Hcd, Hmm, Hdd.
  replace (100 * (YearFromTime t / 100) + YearFromTime t mod 100) with (YearFromTime t)
    by euclid.
  change (Ascii.eqb "-" "-") with true. cbn [andb].
  destruct (Z.leb_spec 1 (MonthFromTime t + 1)); [|lia].
  destruct (Z.leb_spec (MonthFromTime t + 1) 12); [|lia].
  destruct (Z.leb_spec 1 (DateFromTime t)); [|lia].
  destruct (Z.leb_spec (DateFromTime t)
              (daysInMonth (YearFromTime t) (MonthFromTime t + 1 - 1))); [|lia].
  reflexivity.
Qed.

Lemma todayString_reads_back_witness :
  1000 <= YearFromTime (JsDate.LocalTime Sample.madrid Sample.loadTime) <= 9999
  /\ JsDate.parseDateOnly (Form.todayString Sample.pageFailing) = Some (2026, 11, 2).
Proof.
  assert (Hy : 1000 <= YearFromTime (JsDate.LocalTime (Form.platform Sample.pageFailing)
                                       (Form.now Sample.pageFailing)) <= 9999)
    by (vm_compute; split; discriminate).
  split; [exact Hy|].
  exact (todayString_reads_back Sample.pageFailing Hy).
Defined.

End TodayString.

(** ** The submit handler as a whole *)

Section WholeHandler.

Variable pg : Form.Page.
Let P := Form.platform pg.

(** X6. On values of the form YYYY-MM-DD the second input check is the calendar:
    with [todayString] of that form too, a value gets past the checks exactly
    when its date is not later than that of [todayString], and a later date
    gets the message about past dates and nothing else. *)
Theorem date_check_follows_calendar v w y m d y' m' d' :
  JsDate.parseDateOnly v = Some (y, m, d) ->
  JsDate.parseDateOnly (Form.todayString pg) = Some (y', m', d') ->
  (Form.accepted pg v <-> ~ laterDate (y, m, d) (y', m', d'))
  /\ (laterDate (y, m, d) (y', m', d') ->
      Form.onSubmit pg v w
      = (Normal tt,
         mkWorld (loaderHidden w) "block" Form.msgSelectPast (localStorage w)
           (effects w ++ [SetDisplay "block"]))).
Proof.
  intros Hv Ht.
  pose proof (gt_dateOnly v (Form.todayString pg) y m d y' m' d' Hv Ht) as Hgt.
  assert (Htruthy : JsString.truthy v = true) by (destruct v; [discriminate Hv | reflexivity]).
  split.
  - unfold Form.accepted. rewrite Htruthy.
    destruct (JsString.gt v (Form.todayString pg)); split.
    + intros [_ Hf]. discriminate.
    + intros Hn. exfalso. apply Hn. now apply Hgt.
    + intros _ Hl. apply Hgt in Hl. discriminate.
    + now intros _.
  - intros Hl. now apply (later_date_is_rejected pg v w y m d y' m' d').
Qed.

(** A run stopped at an input check shows a message and does nothing else. *)
Lemma rejected_outcome v w :
  JsString.truthy v = false
  \/ (JsString.truthy v = true /\ JsString.gt v (Form.todayString pg) = true) ->
  exists msg,
    Form.onSubmit pg v w
    = (Normal tt,
       mkWorld (loaderHidden w) "block" msg (localStorage w)
         (effects w ++ [SetDisplay "block"])).
Proof.
  intros [Hn | [Ht Hn]]; eexists;
    [apply (onSubmit_empty pg v w Hn) | apply (onSubmit_future pg v w Ht Hn)].
Qed.

(** X8. The handler throws only on a cache hit: when a run ends with an error
    the page is exactly as it was, and the error comes from parsing or
    rendering the truthy string found under the key. *)
Theorem throws_only_on_cached_entry v w e :
  fst (Form.onSubmit pg v w) = Throw e ->
  snd (Form.onSubmit pg v w) = w
  /\ Form.accepted pg v
  /\ exists s,
       localStorage w !! Form.cacheKey P v = Some s
       /\ JsString.truthy s = true
       /\ (JSON_parse P s = inl e
           \/ exists data, JSON_parse P s = inr data
                           /\ Form.displayResults pg data w = (Throw e, w)).
Proof.
  intros Hthrow.
  destruct (accepted_dec pg v) as [Hv | [Hn | [Ht Hn]]].
  - destruct (Form.found (localStorage w !! Form.cacheKey P v)) eqn:Hfound.
    + destruct (localStorage w !! Form.cacheKey P v) as [s|] eqn:Hs; [|discriminate].
      cbn in Hfound. rewrite (onSubmit_hit pg v w s Hv Hs Hfound) in Hthrow |- *.
      fold P in Hthrow |- *.
      destruct (JSON_parse P s) as [e' | data] eqn:Hparse.
      * cbn in Hthrow. injection Hthrow as ->.
        split; [reflexivity|]. split; [exact Hv|]. exists s. auto.
      * destruct (displayResults_outcome pg data w) as [[e' Hd] | (t & d & a & Hd)];
          rewrite Hd in *; [|discriminate].
        cbn in Hthrow. injection Hthrow as ->.
        split; [reflexivity|]. split; [exact Hv|]. exists s.
        split; [reflexivity|]. split; [exact Hfound|]. right. now exists data.
    + destruct (onSubmit_miss_calls pg v w Hv Hfound) as [Hdone _]. congruence.
  - rewrite (onSubmit_empty pg v w Hn) in Hthrow. discriminate.
  - rewrite (onSubmit_future pg v w Ht Hn) in Hthrow. discriminate.
Qed.

(** X9. What a run does to the store: every key other than the derived one keeps
    its value, no key is removed, and the store is either as it was or has
    one entry set, under the derived key, to a serialized parsed answer. *)
Theorem store_changes_only_at_key v w :
  (forall k, k <> Form.cacheKey P v ->
     localStorage (snd (Form.onSubmit pg v w)) !! k = localStorage w !! k)
  /\ (forall k, is_Some (localStorage w !! k) ->
        is_Some (localStorage (snd (Form.onSubmit pg v w)) !! k))
  /\ (localStorage (snd (Form.onSubmit pg v w)) = localStorage w
      \/ exists data,
           localStorage (snd (Form.onSubmit pg v w))
           = <[Form.cacheKey P v := Json.stringify data]> (localStorage w)).
Proof.
  assert (Hcases : localStorage (snd (Form.onSubmit pg v w)) = localStorage w
                   \/ exists data,
                        localStorage (snd (Form.onSubmit pg v w))
                        = <[Form.cacheKey P v := Json.stringify data]> (localStorage w)).
  { destruct (accepted_dec pg v) as [Hv | [Hn | [Ht Hn]]].
    - destruct (Form.found (localStorage w !! Form.cacheKey P v)) eqn:Hfound.
      + destruct (localStorage w !! Form.cacheKey P v) as [s|] eqn:Hs; [|discriminate].
        cbn in Hfound. rewrite (onSubmit_hit pg v w s Hv Hs Hfound).
        destruct (JSON_parse (Form.platform pg) s) as [e | data]; [now left|].
        destruct (displayResults_outcome pg data w) as [[e' ->] | (t & d & a & ->)];
          now left.
      + rewrite (onSubmit_miss pg v w Hv Hfound). cbv zeta. fold P.
        destruct (Form.aiAnswer pg (Form.promptFor P v)) as [e | text]; [now left|].
        destruct (JSON_parse P (Form.textOf text)) as [e | data]; [now left|].
        set (w2 := mkWorld false "none" "" _ _).
        destruct (displayResults_outcome pg data w2) as [[e' ->] | (t & d & a & ->)];
          right; now exists data.
    - left. now rewrite (onSubmit_empty pg v w Hn).
    - left. now rewrite (onSubmit_future pg v w Ht Hn). }
  split; [|split; [|exact Hcases]].
  - intros k Hk. destruct Hcases as [-> | [data ->]]; [reflexivity|].
    now rewrite lookup_insert_ne.
  - intros k Hsome. destruct Hcases as [-> | [data ->]]; [exact Hsome|].
    destruct (decide (Form.cacheKey P v = k)) as [<- | Hne].
    + rewrite lookup_insert_eq. eauto.
    + now rewrite lookup_insert_ne.
Qed.

(** X10. A run sends at most one request and writes at most one entry, and it
    writes only when it has sent a request; a run stopped at the input
    checks and a run that finds a truthy cached string send nothing. *)
Theorem one_request_one_write v w :
  exists requests entries,
    Trace.calls (effects (snd (Form.onSubmit pg v w)))
    = Trace.calls (effects w) ++ requests
    /\ Trace.writes (effects (snd (Form.onSubmit pg v w)))
       = Trace.writes (effects w) ++ entries
    /\ (length entries <= length requests <= 1)%nat
    /\ (~ Form.accepted pg v
        \/ Form.found (localStorage w !! Form.cacheKey P v) = true ->
        requests = []).
Proof.
  destruct (accepted_dec pg v) as [Hv | Hno].
  - destruct (Form.found (localStorage w !! Form.cacheKey P v)) eqn:Hfound.
    + exists [], []. rewrite !app_nil_r.
      destruct (localStorage w !! Form.cacheKey P v) as [s|] eqn:Hs; [|discriminate].
      cbn in Hfound. rewrite (onSubmit_hit pg v w s Hv Hs Hfound).
      destruct (JSON_parse (Form.platform pg) s) as [e | data];
        [cbn; repeat split; auto|].
      destruct (displayResults_outcome pg data w) as [[e' ->] | (t & d & a & ->)];
        cbn; rewrite ?calls_app, ?writes_app; cbn; rewrite ?app_nil_r;
        repeat split; auto.
    + rewrite (onSubmit_miss pg v w Hv Hfound). cbv zeta. fold P.
      destruct (Form.aiAnswer pg (Form.promptFor P v)) as [e | text].
      { exists [Form.promptFor P v], []. cbn.
        rewrite <- !app_assoc, calls_app, writes_app. cbn. rewrite app_nil_r.
        repeat split; auto. intros [Hc | Hc]; [tauto | discriminate]. }
      destruct (JSON_parse P (Form.textOf text)) as [e | data].
      { exists [Form.promptFor P v], []. cbn.
        rewrite <- !app_assoc, calls_app, writes_app. cbn. rewrite app_nil_r.
        repeat split; auto. intros [Hc | Hc]; [tauto | discriminate]. }
      exists [Form.promptFor P v], [(Form.cacheKey P v, Json.stringify data)].
      set (w2 := mkWorld false "none" "" _ _).
      destruct (displayResults_outcome pg data w2) as [[e' ->] | (t & d & a & ->)];
        subst w2; cbn; rewrite <- !app_assoc, calls_app, writes_app; cbn;
        (repeat split; auto; intros [Hc | Hc]; [tauto | discriminate]).
  - exists [], []. rewrite !app_nil_r.
    destruct (rejected_outcome v w Hno) as [msg ->]. cbn.
    rewrite calls_app, writes_app. cbn. rewrite !app_nil_r. repeat split; auto.
Qed.

(** X11. The cache round trip: once a run has fetched, stored and rendered a
    movie record that [JSON.parse] reads back from its serialization, a
    later submission of any accepted date with the same key sends no
    request and renders the same markup. *)
Theorem second_submission_uses_cache v v' w text data title description alternatives :
  Form.accepted pg v ->
  Form.accepted pg v' ->
  Form.cacheKey P v' = Form.cacheKey P v ->
  Form.found (localStorage w !! Form.cacheKey P v) = false ->
  Form.aiAnswer pg (Form.promptFor P v) = inr text ->
  JSON_parse P (Form.textOf text) = inr data ->
  Form.isMovieResult data title description alternatives ->
  JSON_parse P (Json.stringify data) = inr data ->
  innerHTML (snd (Form.onSubmit pg v w)) = Form.movieHtml title description alternatives
  /\ Form.onSubmit pg v' (snd (Form.onSubmit pg v w))
     = (Normal tt,
        mkWorld true "block" (Form.movieHtml title description alternatives)
          (localStorage (snd (Form.onSubmit pg v w)))
          (effects (snd (Form.onSubmit pg v w)) ++ [SetDisplay "block"])).
Proof.
  intros Hv Hv' Hkey Hmiss Hai Hparse Hmovie Hback.
  assert (Hfirst : Form.onSubmit pg v w
                   = (Normal tt,
                      mkWorld true "block" (Form.movieHtml title description alternatives)
                        (<[Form.cacheKey P v := Json.stringify data]> (localStorage w))
                        (effects w ++ [SetDisplay "none";
                                       GenerateContent Form.modelName (Form.promptFor P v);
                                       SetItem (Form.cacheKey P v) (Json.stringify data);
                                       SetDisplay "block"; SetDisplay "block"]))).
  { rewrite (onSubmit_miss pg v w Hv Hmiss). cbv zeta. fold P. rewrite Hai, Hparse.
    rewrite (displayResults_movie pg data title description alternatives _ Hmovie).
    cbn. rewrite <- !app_assoc. reflexivity. }
  rewrite Hfirst. cbn [snd innerHTML localStorage effects]. split; [reflexivity|].
  assert (Htruthy : JsString.truthy (Json.stringify data) = true).
  { destruct Hmovie as (props & -> & _). reflexivity. }
  rewrite (onSubmit_hit pg v' _ (Json.stringify data) Hv').
  - fold P. rewrite Hback.
    now rewrite (displayResults_movie pg data title description alternatives _ Hmovie).
  - cbn [localStorage]. fold P. rewrite Hkey. apply lookup_insert_eq.
  - exact Htruthy.
Qed.

End WholeHandler.

Lemma date_check_follows_calendar_witness :
  JsDate.parseDateOnly "2026-11-02" = Some (2026, 11, 2)
  /\ JsDate.parseDateOnly (Form.todayString Sample.pageFailing) = Some (2026, 11, 2)
  /\ Form.accepted Sample.pageFailing "2026-11-02".
Proof.
  split; [reflexivity|]. split; [reflexivity|].
  apply (proj2 (proj1 (date_check_follows_calendar Sample.pageFailing "2026-11-02"
                         Sample.emptyWorld 2026 11 2 2026 11 2 eq_refl eq_refl))).
  unfold laterDate. lia.
Defined.

Lemma throws_only_on_cached_entry_witness :
  fst (Form.onSubmit Sample.pageTitanic "2024-01-15"
         (Sample.worldWith "movie-enero-2024" "esto no es JSON"))
  = Throw Sample.syntaxError
  /\ snd (Form.onSubmit Sample.pageTitanic "2024-01-15"
            (Sample.worldWith "movie-enero-2024" "esto no es JSON"))
     = Sample.worldWith "movie-enero-2024" "esto no es JSON".
Proof.
  assert (H : fst (Form.onSubmit Sample.pageTitanic "2024-01-15"
                     (Sample.worldWith "movie-enero-2024" "esto no es JSON"))
              = Throw Sample.syntaxError) by reflexivity.
  split; [exact H|].
  exact (proj1 (throws_only_on_cached_entry Sample.pageTitanic "2024-01-15" _ _ H)).
Defined.

Lemma second_submission_uses_cache_witness :
  Form.accepted Sample.pageTitanic "2024-01-15"
  /\ Form.accepted Sample.pageTitanic "2024-01-20"
  /\ Form.cacheKey Sample.madrid "2024-01-20" = Form.cacheKey Sample.madrid "2024-01-15"
  /\ JSON_parse Sample.madrid (Json.stringify Sample.titanic) = inr Sample.titanic
  /\ Trace.calls
       (effects (snd (Form.onSubmit Sample.pageTitanic "2024-01-20"
                        (snd (Form.onSubmit Sample.pageTitanic "2024-01-15"
                                Sample.emptyWorld)))))
     = [Form.promptFor Sample.madrid "2024-01-15"].
Proof.
  assert (Hv : Form.accepted Sample.pageTitanic "2024-01-15") by (split; reflexivity).
  assert (Hv' : Form.accepted Sample.pageTitanic "2024-01-20") by (split; reflexivity).
  assert (Hk : Form.cacheKey Sample.madrid "2024-01-20"
               = Form.cacheKey Sample.madrid "2024-01-15") by reflexivity.
  assert (Hp : JSON_parse Sample.madrid (Json.stringify Sample.titanic) = inr Sample.titanic)
    by reflexivity.
  split; [exact Hv|]. split; [exact Hv'|]. split; [exact Hk|]. split; [exact Hp|].
  destruct (second_submission_uses_cache Sample.pageTitanic "2024-01-15" "2024-01-20"
              Sample.emptyWorld (Some (Json.stringify Sample.titanic)) Sample.titanic
              "Titanic" "Un transatlántico se hunde." ["Tomorrow Never Dies"; "Scream 2"]
              Hv Hv' Hk eq_refl eq_refl Hp
              (ex_intro _ _ (conj eq_refl (conj eq_refl (conj eq_refl eq_refl)))) Hp)
    as [_ Hsecond].
  rewrite Hsecond. reflexivity.
Defined.

(** ** Rendering, case by case *)

Section RenderingCases.

Variable pg : Form.Page.
Let P := Form.platform pg.


(** X13. [displayResults] is all or nothing, and local: when it throws the page
    is exactly as it was; when it returns, the loader is hidden and the
    result area is shown; either way the store is untouched, no request is
    sent and no entry is written. *)
Theorem displayResults_all_or_nothing data w :
  localStorage (snd (Form.displayResults pg data w)) = localStorage w
  /\ Trace.calls (effects (snd (Form.displayResults pg data w))) = Trace.calls (effects w)
  /\ Trace.writes (effects (snd (Form.displayResults pg data w))) = Trace.writes (effects w)
  /\ (forall e, fst (Form.displayResults pg data w) = Throw e ->
        snd (Form.displayResults pg data w) = w)
  /\ (fst (Form.displayResults pg data w) = Normal tt ->
      loaderHidden (snd (Form.displayResults pg data w)) = true
      /\ display (snd (Form.displayResults pg data w)) = "block").
Proof.
  destruct (displayResults_outcome pg data w) as [[e' ->] | (t & d & a & ->)];
    cbn [fst snd localStorage effects loaderHidden display].
  - repeat split; auto; intros; discriminate.
  - rewrite calls_app, writes_app. cbn. rewrite !app_nil_r.
    repeat split; auto; intros; discriminate.
Qed.


End RenderingCases.


(** ** The proxy handler and the upstream answer *)

(** The runtime [rt] with the status of every upstream answer replaced. *)
Definition withUpstreamStatus (f : Proxy.UpstreamResponse -> Z) (rt : Proxy.Runtime)
    : Proxy.Runtime :=
  {| Proxy.platform := Proxy.platform rt;
     Proxy.GOOGLE_API_KEY := Proxy.GOOGLE_API_KEY rt;
     Proxy.fetch := fun u body =>
       match Proxy.fetch rt u body with
       | inl e => inl e
       | inr r => inr {| Proxy.upstreamStatus := f r;
                         Proxy.upstreamBody := Proxy.upstreamBody r |}
       end |}.

Lemma append_assoc (s1 s2 s3 : string) : (s1 +:+ s2) +:+ s3 = s1 +:+ s2 +:+ s3.
Proof.
  induction s1 as [|c s1 IH]; [reflexivity|].
  change (String c ((s1 +:+ s2) +:+ s3) = String c (s1 +:+ s2 +:+ s3)). now rewrite IH.
Qed.

Section ProxyForwarding.

Variable rt : Proxy.Runtime.
Let P := Proxy.platform rt.

(** X15. The handler never looks at the status of the upstream answer: an
    upstream error answered with a JSON body comes back with status 200 like
    any other answer. *)
Theorem upstream_status_is_ignored (f : Proxy.UpstreamResponse -> Z) req :
  Proxy.handler (withUpstreamStatus f rt) req = Proxy.handler rt req.
Proof.
  unfold Proxy.handler, Proxy.forward, Proxy.url, Proxy.destructurePrompt. cbn.
  destruct (JSON_parse (Proxy.platform rt) (Proxy.requestBody req)) as [e | parsed];
    [reflexivity|]. cbn.
  destruct parsed; cbn; try reflexivity;
    match goal with
    | |- context [Proxy.fetch rt ?u ?b] => destruct (Proxy.fetch rt u b) as [e | r]
    end; reflexivity.
Qed.

(** X16. A prompt of any JSON type is forwarded as it is, as the text of the one
    part of the one content of the envelope. *)
Theorem prompt_is_forwarded_verbatim req parsed prompt :
  JSON_parse P (Proxy.requestBody req) = inr parsed ->
  Json.field parsed "prompt" = Some prompt ->
  Proxy.forward rt req
  = Proxy.andThen (Proxy.fetch rt (Proxy.url rt) (Json.stringify (Proxy.envelope (Some prompt))))
      (fun response =>
         Proxy.andThen (JSON_parse P (Proxy.upstreamBody response))
           (fun data => inr (Proxy.mkResponse (Json.stringify data) 200)))
  /\ Json.stringify (Proxy.envelope (Some prompt))
     = "{" +:+ Json.quote "contents" +:+ ":[{" +:+ Json.quote "parts" +:+ ":[{"
       +:+ Json.quote "text" +:+ ":" +:+ Json.stringify prompt +:+ "}]}]}".
Proof.
  intros Hparse Hfield. split.
  - unfold Proxy.forward. fold P. rewrite Hparse. cbn [Proxy.andThen].
    unfold Proxy.destructurePrompt. rewrite Hfield.
    destruct parsed; try discriminate Hfield. reflexivity.
  - cbn. rewrite !append_assoc. reflexivity.
Qed.

End ProxyForwarding.

Lemma prompt_is_forwarded_verbatim_witness :
  JSON_parse Sample.utc (Json.stringify Sample.promptX) = inr Sample.promptX
  /\ Json.field Sample.promptX "prompt" = Some (JStr "x")
  /\ Json.stringify (Proxy.envelope (Some (JStr "x")))
     = "{" +:+ Json.quote "contents" +:+ ":[{" +:+ Json.quote "parts" +:+ ":[{"
       +:+ Json.quote "text" +:+ ":" +:+ Json.quote "x" +:+ "}]}]}".
Proof.
  split; [reflexivity|]. split; [reflexivity|].
  exact (proj2 (prompt_is_forwarded_verbatim Sample.upstreamOk
                  {| Proxy.requestBody := Json.stringify Sample.promptX |}
                  Sample.promptX (JStr "x") eq_refl eq_refl)).
Defined.

(** ** Keys and what they stand for *)

Section KeyInjective.

(** The decimal text of an integer determines it. *)
Lemma ofZ_inj z z' : JsString.ofZ z = JsString.ofZ z' -> z = z'.
Proof.
  assert (Hback : forall d,
             option_map Z.of_int (NilZero.int_of_string (NilZero.string_of_int d))
             = Some (Z.of_int d)).
  { intros [[| | | | | | | | | |] | [| | | | | | | | | |]];
      try (rewrite NilZero.isi by discriminate; reflexivity).
    - now rewrite NilZero.isi_posnil.
    - now rewrite NilZero.isi_negnil. }
  unfold JsString.ofZ. intros Heq.
  pose proof (Hback (Z.to_int z)) as Hz. rewrite Heq, Hback in Hz.
  injection Hz as Hz. now rewrite !of_to in Hz.
Qed.

(** X17. Two keys are equal only for the same month and the same year: no two
    months share a cache entry. *)
Theorem key_determines_month_and_year m y m' y' :
  0 <= m <= 11 -> 0 <= m' <= 11 ->
  Form.cacheKeyOf (JsDate.monthLong_esES m) (Some y)
  = Form.cacheKeyOf (JsDate.monthLong_esES m') (Some y') ->
  m = m' /\ y = y'.
Proof.
  intros Hm Hm' Hkey.
  assert (Hc : m = 0 \/ m = 1 \/ m = 2 \/ m = 3 \/ m = 4 \/ m = 5 \/ m = 6 \/ m = 7
               \/ m = 8 \/ m = 9 \/ m = 10 \/ m = 11) by lia.
  assert (Hc' : m' = 0 \/ m' = 1 \/ m' = 2 \/ m' = 3 \/ m' = 4 \/ m' = 5 \/ m' = 6
                \/ m' = 7 \/ m' = 8 \/ m' = 9 \/ m' = 10 \/ m' = 11) by lia.
  clear Hm Hm'. unfold Form.cacheKeyOf, JsDate.numberToString in Hkey.
  repeat (destruct Hc as [-> | Hc] || subst m);
    repeat (destruct Hc' as [-> | Hc'] || subst m');
    cbv [JsDate.monthLong_esES String.append] in Hkey;
    try discriminate Hkey;
    (split; [reflexivity|]); apply ofZ_inj; now injection Hkey.
Qed.

End KeyInjective.

Lemma key_determines_month_and_year_witness :
  0 <= 0 <= 11
  /\ Form.cacheKeyOf (JsDate.monthLong_esES 0) (Some 2024)
     = Form.cacheKeyOf (JsDate.monthLong_esES 0) (Some 2024)
  /\ 0 = 0 /\ 2024 = 2024.
Proof.
  assert (H : 0 <= 0 <= 11) by lia.
  split; [exact H|]. split; [reflexivity|].
  exact (key_determines_month_and_year 0 2024 0 2024 H H eq_refl).
Defined.

(** ** The cache hit and the AI service *)

(** X18. A cache hit does not depend on the AI service: two pages that differ
    only in what the service would answer do the same on a truthy cached
    string. *)
Theorem cache_hit_ignores_service (pg pg' : Form.Page) v w :
  Form.platform pg' = Form.platform pg ->
  Form.now pg' = Form.now pg ->
  Form.accepted pg v ->
  Form.found (localStorage w !! Form.cacheKey (Form.platform pg) v) = true ->
  Form.onSubmit pg' v w = Form.onSubmit pg v w.
Proof.
  intros Hp Hn Hv Hfound.
  destruct (localStorage w !! Form.cacheKey (Form.platform pg) v) as [s|] eqn:Hs;
    [|discriminate].
  cbn in Hfound.
  assert (Hv' : Form.accepted pg' v).
  { destruct Hv as [Ht Hg]. split; [exact Ht|].
    unfold Form.todayString in *. now rewrite Hp, Hn. }
  rewrite (onSubmit_hit pg v w s Hv Hs Hfound).
  rewrite (onSubmit_hit pg' v w s Hv'); [|now rewrite Hp|exact Hfound].
  rewrite Hp. destruct (JSON_parse (Form.platform pg) s) as [e | data]; [reflexivity|].
  unfold Form.displayResults, Form.listItems. now rewrite Hp.
Qed.

Lemma cache_hit_ignores_service_witness :
  Form.accepted Sample.pageTitanic "2024-01-15"
  /\ Form.found (localStorage (Sample.worldWith "movie-enero-2024"
                                (Json.stringify Sample.titanic))
                !! Form.cacheKey Sample.madrid "2024-01-15") = true
  /\ Form.onSubmit Sample.pageFailing "2024-01-15"
       (Sample.worldWith "movie-enero-2024" (Json.stringify Sample.titanic))
     = Form.onSubmit Sample.pageTitanic "2024-01-15"
         (Sample.worldWith "movie-enero-2024" (Json.stringify Sample.titanic)).
Proof.
  assert (Hv : Form.accepted Sample.pageTitanic "2024-01-15") by (split; reflexivity).
  assert (Hf : Form.found (localStorage (Sample.worldWith "movie-enero-2024"
                                           (Json.stringify Sample.titanic))
                           !! Form.cacheKey (Form.platform Sample.pageTitanic) "2024-01-15")
               = true) by reflexivity.
  split; [exact Hv|]. split; [exact Hf|].
  exact (cache_hit_ignores_service Sample.pageTitanic Sample.pageFailing "2024-01-15" _
           eq_refl eq_refl Hv Hf).
Defined.
